(** * SolarOracleWalkman: the IV voiceprint oracle contract

    A shallow embedding of the Solidity contract [SolarOracleWalkman]
    (validator, admission, storage, integrity walk, lookup) and the
    properties of it that the specification states.

    Conventions.  A [uint256], [bytes32] or [address] is a [Z]; the
    contract is compiled with Solidity 0.8, whose arithmetic reverts on
    overflow instead of wrapping, and the places where that can happen are
    written out.  A Solidity [mapping] is a [gmap] read with the zero value
    as default.  A reverting call is an [Err]; a reverted transaction
    leaves the state as it was. *)

From Stdlib Require Import ZArith QArith Sorted.
From stdpp Require Import gmap strings list fin_maps.

Local Open Scope string_scope.
Local Open Scope list_scope.
Local Open Scope Z_scope.

(** ** Validation parameters (scaled by 1000) *)

Definition MIN_VALUE : Z := 10.
Definition MAX_VALUE : Z := 3000.
Definition MIN_VARIANCE : Z := 50.
Definition MAX_VARIANCE : Z := 1200.
Definition MAX_RANGE : Z := 2500.
Definition MAX_ALTERNATIONS : Z := 3.
Definition MIN_UNIQUE_VALUES : Z := 4.

(** The fixed-point convention of the contract: a stored integer [n]
    stands for [n / 1000] real units ([10] is [0.01], [3000] is [3.0]).
    A variance of such integers is a sum of products of two of them, so
    a variance [n] stands for [n / 1000000] squared real units. *)
Definition variance_units (n : Z) : Q := Qmake n 1000000.

(** ** [uint256[7]] *)

Record IV7 : Type := MkIV7 {
  iv_0 : Z; iv_1 : Z; iv_2 : Z; iv_3 : Z; iv_4 : Z; iv_5 : Z; iv_6 : Z
}.

Definition elems (a : IV7) : list Z :=
  [iv_0 a; iv_1 a; iv_2 a; iv_3 a; iv_4 a; iv_5 a; iv_6 a].

(** [a[i]]; every index the contract uses is below 7. *)
Definition at7 (a : IV7) (i : nat) : Z := nth i (elems a) 0.

(** [for (uint i = lo; i < hi; i++) body], without early exit. *)
Definition for_range {S : Type} (lo hi : nat) (body : nat -> S -> S) (s : S) : S :=
  fold_left (fun acc i => body i acc) (seq lo (hi - lo)) s.

(** [x > y ? x - y : y - x] *)
Definition absdiff (x y : Z) : Z := if x >? y then x - y else y - x.

(** ** The six checks of [validateIV7Data], in source order *)

(** Range validation: the loop returns at the first offending element. *)
Fixpoint range_loop (iv7Data : IV7) (idxs : list nat) : bool :=
  match idxs with
  | [] => true
  | i :: rest =>
      if (at7 iv7Data i <? MIN_VALUE) || (at7 iv7Data i >? MAX_VALUE)
      then false
      else range_loop iv7Data rest
  end.

Definition in_range (iv7Data : IV7) : bool := range_loop iv7Data (seq 0 7).

(** Statistics loop: [sum], [min], [max]. *)
Record Stats : Type := MkStats { st_sum : Z; st_min : Z; st_max : Z }.

Definition stats_body (iv7Data : IV7) (i : nat) (s : Stats) : Stats :=
  let v := at7 iv7Data i in
  {| st_sum := st_sum s + v;
     st_min := if v <? st_min s then v else st_min s;
     st_max := if v >? st_max s then v else st_max s |}.

Definition statistics (iv7Data : IV7) : Stats :=
  for_range 0 7 (stats_body iv7Data)
    {| st_sum := 0; st_min := at7 iv7Data 0; st_max := at7 iv7Data 0 |}.

(** Unsigned division: the operands are never negative here. *)
Definition mean_of (iv7Data : IV7) : Z := st_sum (statistics iv7Data) / 7.

Definition range_of (iv7Data : IV7) : Z :=
  st_max (statistics iv7Data) - st_min (statistics iv7Data).

(** Variance loop: squared distances to the truncated mean. *)
Definition varianceSum_of (iv7Data : IV7) : Z :=
  let mean := mean_of iv7Data in
  for_range 0 7
    (fun i varianceSum =>
       let diff := absdiff (at7 iv7Data i) mean in
       varianceSum + diff * diff) 0.

Definition variance_of (iv7Data : IV7) : Z := varianceSum_of iv7Data / 7.

(** Monotonic pattern loop: the pair ([isIncreasing], [isDecreasing]). *)
Definition monotone_flags (iv7Data : IV7) : bool * bool :=
  for_range 0 6
    (fun i '(isIncreasing, isDecreasing) =>
       (if at7 iv7Data i >? at7 iv7Data (i + 1) then false else isIncreasing,
        if at7 iv7Data i <? at7 iv7Data (i + 1) then false else isDecreasing))
    (true, true).

(** Unique values: the [counted] marks and the nested loops. *)
Definition mark_duplicates (iv7Data : IV7) (i : nat) (counted : list bool) : list bool :=
  for_range (i + 1) 7
    (fun j counted =>
       if at7 iv7Data i =? at7 iv7Data j then <[j := true]> counted else counted)
    counted.

Definition uniqueCount_of (iv7Data : IV7) : Z :=
  fst (for_range 0 7
         (fun i '(uniqueCount, counted) =>
            if negb (counted !!! i)
            then (uniqueCount + 1, mark_duplicates iv7Data i counted)
            else (uniqueCount, counted))
         (0, replicate 7 false)).

(** Extreme alternations loop. *)
Definition alternations_of (iv7Data : IV7) : Z :=
  for_range 0 6
    (fun i alternations =>
       let diff := absdiff (at7 iv7Data i) (at7 iv7Data (i + 1)) in
       if diff >? 1500 then alternations + 1 else alternations) 0.

(** ** [validateIV7Data] *)

Definition validateIV7Data (iv7Data : IV7) : bool * string :=
  if negb (in_range iv7Data) then (false, "Value outside valid range")
  else if range_of iv7Data >? MAX_RANGE then (false, "Value range too wide")
  else if variance_of iv7Data <? MIN_VARIANCE
       then (false, "Variance too low - values too similar")
  else if variance_of iv7Data >? MAX_VARIANCE
       then (false, "Variance too high - values too scattered")
  else if fst (monotone_flags iv7Data)
       then (false, "Monotonic increasing pattern detected")
  else if snd (monotone_flags iv7Data)
       then (false, "Monotonic decreasing pattern detected")
  else if uniqueCount_of iv7Data <? MIN_UNIQUE_VALUES
       then (false, "Too many duplicate values")
  else if alternations_of iv7Data >? MAX_ALTERNATIONS
       then (false, "Too many extreme value alternations")
  else (true, "").

(** ** Reverts *)

(** [require(c, reason)] and [revert(reason)] give [Error reason];
    checked arithmetic and the libraries give [Panic]. *)
Inductive revert : Type :=
  | Error (reason : string)
  | Panic (code : Z).

Inductive result (A : Type) : Type :=
  | Ok (a : A)
  | Err (e : revert).
Arguments Ok {A} a.
Arguments Err {A} e.

#[export] Instance result_ret : MRet result := fun _ a => Ok a.
#[export] Instance result_bind : MBind result :=
  fun _ _ k m => match m with Ok a => k a | Err e => Err e end.

#[export] Instance result_fmap : FMap result :=
  fun _ _ f m => match m with Ok a => Ok (f a) | Err e => Err e end.

Definition require (c : bool) (reason : string) : result unit :=
  if c then Ok tt else Err (Error reason).

(** ** Storage *)

Definition bytes : Type := list Byte.byte.

Record IVRecord : Type := MkIVRecord {
  identity : string;
  pubkey : Z;
  ivHash : Z;
  iv7Data : IV7;
  timestamp : Z;
  blockNumber : Z;
  isValid : bool
}.

Record IVReport : Type := MkIVReport {
  rep_identity : string;
  rep_pubkey : Z;
  rep_ivHash : Z;
  rep_iv7Data : IV7;
  rep_timestamp : Z
}.

(** What an unset slot of [mapping(bytes32 => IVRecord)] reads as. *)
Definition zero_record : IVRecord :=
  {| identity := ""; pubkey := 0; ivHash := 0;
     iv7Data := MkIV7 0 0 0 0 0 0 0;
     timestamp := 0; blockNumber := 0; isValid := false |}.

Record State : Type := MkState {
  owner : Z;
  oracleSigner : Z;
  maxStaleness : Z;
  usedIvHash : gmap Z bool;
  ivRecords : gmap Z IVRecord;
  userRecords : gmap Z (list Z);
  totalRecords : Z;
  allRecords : list Z
}.

(** [block.timestamp], [block.number] and [msg.sender] of a call. *)
Record Env : Type := MkEnv {
  block_timestamp : Z;
  block_number : Z;
  msg_sender : Z
}.

Definition uint256_max : Z := 2 ^ 256 - 1.

(** The hashing and signature code the contract calls but does not
    contain (keccak256 with the ABI encoders, EIP712, ECDSA). *)
Class Primitives : Type := MkPrimitives {
  (** [_hashTypedDataV4(keccak256(abi.encode(TYPEHASH, ...)))] of a report *)
  hashTypedDataV4 : IVReport -> Z;
  (** [ECDSA.recover(digest, signature)]: the signer, or the library's
      own revert on a malformed signature *)
  ECDSA_recover : Z -> bytes -> result Z;
  (** [keccak256(abi.encodePacked(ivHash, block.number, block.timestamp,
      msg.sender))] *)
  keccak_txId : Z -> Z -> Z -> Z -> Z
}.

(** [maxStaleness = 10 minutes]; [Ownable] makes the deployer the owner. *)
Definition constructor (deployer _signer : Z) : State :=
  {| owner := deployer;
     oracleSigner := _signer;
     maxStaleness := 600;
     usedIvHash := ∅;
     ivRecords := ∅;
     userRecords := ∅;
     totalRecords := 0;
     allRecords := [] |}.

(** The record [verifyAndStore] writes for a report. *)
Definition record_of (env : Env) (report : IVReport) : IVRecord :=
  {| identity := rep_identity report;
     pubkey := rep_pubkey report;
     ivHash := rep_ivHash report;
     iv7Data := rep_iv7Data report;
     timestamp := rep_timestamp report;
     blockNumber := block_number env;
     isValid := true |}.

(** The freshness condition; [&&] guards the subtraction. *)
Definition fresh (env : Env) (s : State) (report : IVReport) : bool :=
  (block_timestamp env >=? rep_timestamp report)
  && (block_timestamp env - rep_timestamp report <=? maxStaleness s).

Section Contract.
Context {prim : Primitives}.

(** ** [verifyAndStore]

    The [ValidationFailed] event is emitted right before the revert that
    discards it, and [IVRecordStored] is not read by any function. *)
Definition verifyAndStore (env : Env) (s : State)
    (report : IVReport) (signature : bytes) : result (Z * State) :=
  (* Freshness check *)
  require (fresh env s report) "Report too stale";;
  (* Duplicate check *)
  require (negb (default false (usedIvHash s !! rep_ivHash report)))
          "IV hash already used";;
  (* Validate IV data *)
  let '(isValid, reason) := validateIV7Data (rep_iv7Data report) in
  (if negb isValid
   then Err (Error ("Validation failed: " +:+ reason))
   else Ok tt);;
  (* Verify signature *)
  let digest := hashTypedDataV4 report in
  signer ← ECDSA_recover digest signature;
  require (signer =? oracleSigner s) "Invalid oracle signature";;
  (* Generate transaction ID *)
  let txId := keccak_txId (rep_ivHash report) (block_number env)
                          (block_timestamp env) (msg_sender env) in
  (* Store record, update indexes; [totalRecords++] is checked *)
  (if totalRecords s =? uint256_max then Err (Panic 17) else Ok tt);;
  Ok (txId,
      {| owner := owner s;
         oracleSigner := oracleSigner s;
         maxStaleness := maxStaleness s;
         usedIvHash := <[rep_ivHash report := true]> (usedIvHash s);
         ivRecords := <[txId := record_of env report]> (ivRecords s);
         userRecords :=
           <[msg_sender env :=
               default [] (userRecords s !! msg_sender env) ++ [txId]]>
             (userRecords s);
         totalRecords := totalRecords s + 1;
         allRecords := allRecords s ++ [txId] |}).

(** ** [verifyChainIntegrity] *)
Definition invalidCount_of (s : State) : Z :=
  for_range 0 (length (allRecords s))
    (fun i invalidCount =>
       let txId := default 0 (allRecords s !! i) in
       let record := default zero_record (ivRecords s !! txId) in
       let '(recordValid, _) := validateIV7Data (iv7Data record) in
       if negb recordValid then invalidCount + 1 else invalidCount) 0.

Definition verifyChainIntegrity (s : State) : result (bool * Z * string) :=
  let invalidCount := invalidCount_of s in
  if invalidCount >? 0
  then Ok (false, invalidCount, "Invalid voiceprints detected in chain")
  else Ok (true, 0, "All voiceprints valid").

(** ** [getRecord], [getUserRecords] *)
Definition getRecord (s : State) (txId : Z) : result IVRecord :=
  Ok (default zero_record (ivRecords s !! txId)).

Definition getUserRecords (s : State) (user : Z) : result (list Z) :=
  Ok (default [] (userRecords s !! user)).

(** ** Owner functions

    [onlyOwner], [transferOwnership] and [renounceOwnership] come from
    OpenZeppelin's [Ownable] 4.9, which the contract inherits. *)
Definition onlyOwner (env : Env) (s : State) : result unit :=
  require (owner s =? msg_sender env) "Ownable: caller is not the owner".

Definition updateOracleSigner (env : Env) (s : State) (newSigner : Z)
    : result State :=
  onlyOwner env s;;
  Ok {| owner := owner s; oracleSigner := newSigner;
        maxStaleness := maxStaleness s; usedIvHash := usedIvHash s;
        ivRecords := ivRecords s; userRecords := userRecords s;
        totalRecords := totalRecords s; allRecords := allRecords s |}.

Definition updateMaxStaleness (env : Env) (s : State) (newStaleness : Z)
    : result State :=
  onlyOwner env s;;
  Ok {| owner := owner s; oracleSigner := oracleSigner s;
        maxStaleness := newStaleness; usedIvHash := usedIvHash s;
        ivRecords := ivRecords s; userRecords := userRecords s;
        totalRecords := totalRecords s; allRecords := allRecords s |}.

Definition set_owner (s : State) (newOwner : Z) : State :=
  {| owner := newOwner; oracleSigner := oracleSigner s;
     maxStaleness := maxStaleness s; usedIvHash := usedIvHash s;
     ivRecords := ivRecords s; userRecords := userRecords s;
     totalRecords := totalRecords s; allRecords := allRecords s |}.

Definition transferOwnership (env : Env) (s : State) (newOwner : Z)
    : result State :=
  onlyOwner env s;;
  require (negb (newOwner =? 0)) "Ownable: new owner is the zero address";;
  Ok (set_owner s newOwner).

Definition renounceOwnership (env : Env) (s : State) : result State :=
  onlyOwner env s;;
  Ok (set_owner s 0).

(** ** Transactions *)

Inductive Call : Type :=
  | CallVerifyAndStore (report : IVReport) (signature : bytes)
  | CallUpdateOracleSigner (newSigner : Z)
  | CallUpdateMaxStaleness (newStaleness : Z)
  | CallTransferOwnership (newOwner : Z)
  | CallRenounceOwnership.

Definition call (env : Env) (s : State) (c : Call) : result State :=
  match c with
  | CallVerifyAndStore report signature =>
      snd <$> verifyAndStore env s report signature
  | CallUpdateOracleSigner a => updateOracleSigner env s a
  | CallUpdateMaxStaleness n => updateMaxStaleness env s n
  | CallTransferOwnership a => transferOwnership env s a
  | CallRenounceOwnership => renounceOwnership env s
  end.

(** A reverted transaction changes nothing. *)
Definition transact (s : State) (tx : Env * Call) : State :=
  match call (fst tx) s (snd tx) with
  | Ok s' => s'
  | Err _ => s
  end.

Definition run (s : State) (txs : list (Env * Call)) : State :=
  fold_left transact txs s.

End Contract.

(** ** Reading the ledger *)

(** The record the contract reads for a transaction id. *)
Definition stored (s : State) (txId : Z) : IVRecord :=
  default zero_record (ivRecords s !! txId).

(** The [n]-th appended record, in the order of [allRecords]. *)
Definition block_at (s : State) (n : nat) : option IVRecord :=
  stored s <$> allRecords s !! n.

(** Every id in [allRecords] holds a vector the validator accepts. *)
Definition all_valid (s : State) : Prop :=
  forall txId, In txId (allRecords s) ->
    fst (validateIV7Data (iv7Data (stored s txId))) = true.

(** Every record held in [ivRecords] has a vector the validator accepts. *)
Definition records_valid (s : State) : Prop :=
  forall txId r, ivRecords s !! txId = Some r ->
    fst (validateIV7Data (iv7Data r)) = true.

(** The ids whose stored vector the validator rejects. *)
Definition invalid_ids (s : State) : list Z :=
  List.filter (fun txId => negb (fst (validateIV7Data (iv7Data (stored s txId)))))
              (allRecords s).

(** ** The variance, as the specification words it *)

(** The formula the specification gives for the variance: the mean of the
    squared deviations from the mean, both divisions truncated. *)
Definition sumZ (l : list Z) : Z := foldr Z.add 0 l.

Definition population_variance (l : list Z) : Z :=
  let mean := sumZ l / 7 in
  sumZ (map (fun x => (x - mean) ^ 2) l) / 7.

(** ** Vectors of the tests *)

Definition sample_vector : IV7 := MkIV7 1000 1020 980 1015 985 1025 990.
Definition monotonic_vector : IV7 := MkIV7 100 200 300 400 500 600 700.

(** ** Concrete runs *)

(** A transparent stand-in for the hashing and signature code, to run the
    contract on concrete calls: the digest of a report is its [ivHash], the
    first byte of a signature names its signer, and the transaction id is
    the packed encoding itself. *)
Definition packed_primitives : Primitives :=
  {| hashTypedDataV4 := fun report => rep_ivHash report;
     ECDSA_recover := fun digest signature =>
       match signature with
       | [] => Err (Error "ECDSA: invalid signature length")
       | b :: _ => Ok (Z.of_N (Byte.to_N b))
       end;
     keccak_txId := fun h number time sender =>
       ((h * 2 ^ 256 + number) * 2 ^ 256 + time) * 2 ^ 160 + sender |}.

(** Deployed by account 100 with oracle signer 200. *)
Definition deployed : State := constructor 100 200.

Definition env_1 : Env :=
  {| block_timestamp := 1000; block_number := 1; msg_sender := 300 |}.
Definition env_2 : Env :=
  {| block_timestamp := 1010; block_number := 2; msg_sender := 300 |}.

(** Signed by the oracle (200 = 0xc8), and by account 1. *)
Definition sig_oracle : bytes := [Byte.xc8].
Definition sig_other : bytes := [Byte.x01].

Definition report_A : IVReport :=
  {| rep_identity := "alice"; rep_pubkey := 11; rep_ivHash := 1001;
     rep_iv7Data := sample_vector; rep_timestamp := 1000 |}.
Definition report_B : IVReport :=
  {| rep_identity := "bob"; rep_pubkey := 12; rep_ivHash := 1002;
     rep_iv7Data := MkIV7 2000 2020 1980 2015 1985 2025 1990;
     rep_timestamp := 999 |}.
Definition report_C : IVReport :=
  {| rep_identity := "carol"; rep_pubkey := 13; rep_ivHash := 1003;
     rep_iv7Data := MkIV7 990 1025 985 1015 980 1020 1000;
     rep_timestamp := 1005 |}.

(** The out-of-range vector of the test script, under a fresh unused hash. *)
Definition report_bad : IVReport :=
  {| rep_identity := "bad_user"; rep_pubkey := 14; rep_ivHash := 1004;
     rep_iv7Data := MkIV7 50 3500 10 4000 80 5000 30;
     rep_timestamp := 1000 |}.

(** The same out-of-range vector in a report dated after the block. *)
Definition report_stale_bad : IVReport :=
  {| rep_identity := "bad_user"; rep_pubkey := 14; rep_ivHash := 1005;
     rep_iv7Data := MkIV7 50 3500 10 4000 80 5000 30;
     rep_timestamp := 2000 |}.

(** [report_A]'s hash again, every other field changed, dated after the
    block. *)
Definition report_A_again : IVReport :=
  {| rep_identity := "mallory"; rep_pubkey := 15; rep_ivHash := 1001;
     rep_iv7Data := MkIV7 990 1025 985 1015 980 1020 1000;
     rep_timestamp := 2000 |}.

(** [report_A]'s hash once more, every other field changed, fresh. *)
Definition report_A_fresh : IVReport :=
  {| rep_identity := "mallory"; rep_pubkey := 15; rep_ivHash := 1001;
     rep_iv7Data := MkIV7 990 1025 985 1015 980 1020 1000;
     rep_timestamp := 1009 |}.

Definition ledger_A : State :=
  run (prim := packed_primitives) deployed
    [(env_1, CallVerifyAndStore report_A sig_oracle)].
Definition ledger_AC : State :=
  run (prim := packed_primitives) deployed
    [(env_1, CallVerifyAndStore report_A sig_oracle);
     (env_2, CallVerifyAndStore report_C sig_oracle)].
Definition ledger_BC : State :=
  run (prim := packed_primitives) deployed
    [(env_1, CallVerifyAndStore report_B sig_oracle);
     (env_2, CallVerifyAndStore report_C sig_oracle)].

(** The linkage of a hash chain, for a choice of what in a stored record
    is its [previous_hash] and of the [block_hash] of a record: every
    record after the first carries the hash of the one before it. *)
Definition hash_linked (previous_hash block_hash : IVRecord -> Z) (s : State) : Prop :=
  forall n b b',
    block_at s n = Some b -> block_at s (S n) = Some b' ->
    previous_hash b' = block_hash b.

(** What [verifyChainIntegrity] reports for a number of rejected vectors. *)
Definition verdict (invalidCount : Z) : result (bool * Z * string) :=
  if invalidCount >? 0
  then Ok (false, invalidCount, "Invalid voiceprints detected in chain")
  else Ok (true, 0, "All voiceprints valid").

(** ** Further definitions for the validator *)

(** The number of distinct values of a vector. *)
Definition distinct_values (iv : IV7) : nat :=
  size (list_to_set (elems iv) : gset Z).

(** Loop invariant of the uniqueness loops: before iteration [i] the
    counter is the number of distinct values among the first [i] elements,
    and [counted[j]] tells whether element [j] already occurs among the
    elements before both [i] and [j]. *)
Definition unique_invariant (iv : IV7) (i : nat) (st : Z * list bool) : Prop :=
  length (snd st) = 7%nat
  /\ fst st = Z.of_nat (size (list_to_set (take i (elems iv)) : gset Z))
  /\ forall j, (j < 7)%nat ->
       snd st !!! j = bool_decide (at7 iv j ∈ take (i `min` j) (elems iv)).

(** Seven times the same value. *)
Definition constant_vector (v : Z) : IV7 := MkIV7 v v v v v v v.

(** The vector read backwards. *)
Definition reversed (iv : IV7) : IV7 :=
  MkIV7 (iv_6 iv) (iv_5 iv) (iv_4 iv) (iv_3 iv) (iv_2 iv) (iv_1 iv) (iv_0 iv).

(** ** Further definitions for the ledger *)

(** No successful [verifyAndStore] of the run produced a transaction id
    that was already in the ledger. *)
Fixpoint no_id_reuse {prim : Primitives} (s : State) (txs : list (Env * Call)) : bool :=
  match txs with
  | [] => true
  | tx :: rest =>
      match snd tx with
      | CallVerifyAndStore report signature =>
          match verifyAndStore (fst tx) s report signature with
          | Ok (txId, _) =>
              match ivRecords s !! txId with None => true | Some _ => false end
          | Err _ => true
          end
      | _ => true
      end
      && no_id_reuse (transact s tx) rest
  end.

(** The indexes of the ledger agree with each other. *)
Definition ledger_consistent (s : State) : Prop :=
  totalRecords s = Z.of_nat (length (allRecords s))
  /\ (forall txId, In txId (allRecords s) <-> is_Some (ivRecords s !! txId))
  /\ (forall txId r, ivRecords s !! txId = Some r ->
        isValid r = true /\ usedIvHash s !! ivHash r = Some true)
  /\ (forall user txId,
        In txId (default [] (userRecords s !! user)) -> In txId (allRecords s))
  /\ (forall txId, In txId (allRecords s) ->
        exists user, In txId (default [] (userRecords s !! user))).

(** A call by the deployer of [deployed]. *)
Definition env_owner : Env :=
  {| block_timestamp := 1000; block_number := 1; msg_sender := 100 |}.

(** * Properties of the validator *)

Section LoopFacts.
Context {S : Type}.

Lemma for_range_unchanged (lo hi : nat) (body : nat -> S -> S) (s : S) :
  (forall i acc, (lo <= i < hi)%nat -> body i acc = acc) ->
  for_range lo hi body s = s.
Proof.
  unfold for_range. intros Hbody.
  assert (Hin : forall i, In i (seq lo (hi - lo)) -> (lo <= i < hi)%nat).
  { intros i Hi. apply in_seq in Hi. lia. }
  revert s Hin. induction (seq lo (hi - lo)) as [|j l IH]; intros s Hin.
  - reflexivity.
  - cbn [fold_left]. rewrite Hbody by (apply Hin; now left).
    apply IH. intros i Hi. apply Hin. now right.
Qed.
End LoopFacts.

(** A running sum of non-negative terms dominates each of its terms. *)
Lemma fold_sum_lower (g : nat -> Z) (l : list nat) (a : Z) :
  (forall i, 0 <= g i) ->
  a <= fold_left (fun acc i => acc + g i) l a.
Proof.
  intros Hg. revert a. induction l as [|j l IH]; intros a; cbn [fold_left].
  - lia.
  - specialize (IH (a + g j)). specialize (Hg j). lia.
Qed.

Lemma fold_sum_term (g : nat -> Z) (l : list nat) (a : Z) (j : nat) :
  (forall i, 0 <= g i) -> In j l ->
  a + g j <= fold_left (fun acc i => acc + g i) l a.
Proof.
  intros Hg. revert a. induction l as [|k l IH]; intros a Hj; cbn [fold_left].
  - destruct Hj.
  - destruct Hj as [-> | Hj].
    + apply fold_sum_lower. exact Hg.
    + specialize (IH (a + g k) Hj). specialize (Hg k). lia.
Qed.

Lemma absdiff_abs (x y : Z) : absdiff x y = Z.abs (x - y).
Proof. unfold absdiff. destruct (Z.gtb_spec x y); lia. Qed.

Lemma absdiff_nonneg (x y : Z) : 0 <= absdiff x y.
Proof. rewrite absdiff_abs. lia. Qed.

(** Every element's squared distance to the mean is at most [varianceSum]. *)
Lemma deviation_le_varianceSum (iv : IV7) (i : nat) :
  (i < 7)%nat ->
  absdiff (at7 iv i) (mean_of iv) * absdiff (at7 iv i) (mean_of iv)
  <= varianceSum_of iv.
Proof.
  intros Hi. unfold varianceSum_of, for_range.
  pose proof (fold_sum_term
    (fun i => absdiff (at7 iv i) (mean_of iv) * absdiff (at7 iv i) (mean_of iv))
    (seq 0 (7 - 0)) 0 i) as H.
  cbv beta in H. rewrite Z.add_0_l in H. apply H.
  - intros k. apply Z.square_nonneg.
  - apply in_seq. lia.
Qed.

Lemma small_square (d : Z) : 0 <= d -> d * d <= 8407 -> d <= 91.
Proof. intros Hd Hsq. nia. Qed.

(** A vector that passes the upper variance bound has all its elements
    within 91 of the truncated mean. *)
Lemma deviation_bound (iv : IV7) (i : nat) :
  (i < 7)%nat -> variance_of iv <= MAX_VARIANCE ->
  Z.abs (at7 iv i - mean_of iv) <= 91.
Proof.
  intros Hi Hvar. unfold variance_of, MAX_VARIANCE in Hvar.
  pose proof (deviation_le_varianceSum iv i Hi) as Hdev.
  rewrite <- absdiff_abs. apply small_square.
  - apply absdiff_nonneg.
  - assert (varianceSum_of iv < 7 * 1201).
    { destruct (Z.lt_ge_cases (varianceSum_of iv) (7 * 1201)) as [Hlt|Hge]; [exact Hlt |].
      apply (Z.div_le_mono _ _ 7) in Hge; [| lia].
      rewrite Z.mul_comm, Z.div_mul in Hge; lia. }
    lia.
Qed.

Lemma alternations_zero (iv : IV7) :
  variance_of iv <= MAX_VARIANCE -> alternations_of iv = 0.
Proof.
  intros Hvar. unfold alternations_of.
  apply for_range_unchanged. intros i acc Hi. cbv zeta.
  pose proof (deviation_bound iv i ltac:(lia) Hvar) as H1.
  pose proof (deviation_bound iv (i + 1) ltac:(lia) Hvar) as H2.
  rewrite absdiff_abs.
  destruct (Z.gtb_spec (Z.abs (at7 iv i - at7 iv (i + 1))) 1500); [lia | reflexivity].
Qed.

(** ** The range check, declaratively *)

Lemma range_loop_true (iv : IV7) (idxs : list nat) :
  range_loop iv idxs = true <->
  (forall i, In i idxs -> MIN_VALUE <= at7 iv i <= MAX_VALUE).
Proof.
  induction idxs as [|j l IH]; cbn [range_loop].
  - split; [intros _ i [] | reflexivity].
  - destruct (Z.ltb_spec (at7 iv j) MIN_VALUE) as [Hlo|Hlo]; cbn [orb].
    + split; [discriminate |]. intros H. specialize (H j (or_introl eq_refl)). lia.
    + destruct (Z.gtb_spec (at7 iv j) MAX_VALUE) as [Hhi|Hhi].
      * split; [discriminate |]. intros H. specialize (H j (or_introl eq_refl)). lia.
      * rewrite IH. split.
        -- intros H i [<- | Hi]; [lia | now apply H].
        -- intros H i Hi. apply H. now right.
Qed.

Lemma elems_at7 (iv : IV7) (v : Z) :
  In v (elems iv) <-> exists i, (i < 7)%nat /\ at7 iv i = v.
Proof.
  destruct iv as [a b c d e f g]. unfold at7, elems; cbn [iv_0 iv_1 iv_2 iv_3 iv_4 iv_5 iv_6].
  split.
  - intros H. cbn [In] in H.
    destruct H as [<-|[<-|[<-|[<-|[<-|[<-|[<-|[]]]]]]]];
      [exists 0%nat | exists 1%nat | exists 2%nat | exists 3%nat
      | exists 4%nat | exists 5%nat | exists 6%nat]; (split; [lia | reflexivity]).
  - intros (i & Hi & <-).
    do 7 (destruct i as [|i]; [cbn; tauto |]). lia.
Qed.

Lemma in_range_true (iv : IV7) :
  in_range iv = true <->
  Forall (fun v => MIN_VALUE <= v <= MAX_VALUE) (elems iv).
Proof.
  unfold in_range. rewrite range_loop_true, List.Forall_forall. split.
  - intros H v Hv. apply elems_at7 in Hv as (i & Hi & <-).
    apply H, in_seq. lia.
  - intros H i Hi. apply in_seq in Hi. apply H, elems_at7. exists i. split; [lia | reflexivity].
Qed.

Lemma in_range_false (iv : IV7) :
  Exists (fun v => v < MIN_VALUE \/ MAX_VALUE < v) (elems iv) ->
  in_range iv = false.
Proof.
  intros Hex. destruct (in_range iv) eqn:E; [| reflexivity].
  apply in_range_true in E. rewrite List.Forall_forall in E.
  apply List.Exists_exists in Hex as (v & Hv & Hbad).
  specialize (E v Hv). lia.
Qed.

(** ** The statistics loop, declaratively *)

Lemma if_min (v m : Z) : (if v <? m then v else m) = Z.min v m.
Proof. destruct (Z.ltb_spec v m); lia. Qed.

Lemma if_max (v m : Z) : (if v >? m then v else m) = Z.max v m.
Proof. destruct (Z.gtb_spec v m); lia. Qed.

(** Loop invariant of the statistics loop: [min] and [max] bracket the
    elements seen so far and are attained, by one of them or by the
    initial value. *)
Lemma stats_loop_invariant (iv : IV7) (l : list nat) (s : Stats) :
  let r := fold_left (fun acc i => stats_body iv i acc) l s in
  (forall i, In i l -> st_min r <= at7 iv i <= st_max r)
  /\ st_min r <= st_min s /\ st_max s <= st_max r
  /\ (st_min r = st_min s \/ exists i, In i l /\ st_min r = at7 iv i)
  /\ (st_max r = st_max s \/ exists i, In i l /\ st_max r = at7 iv i).
Proof.
  revert s. induction l as [|j l IH]; intros s; cbn [fold_left].
  - cbv zeta. split; [intros i [] |]. repeat split; try lia; left; reflexivity.
  - specialize (IH (stats_body iv j s)). cbv zeta in IH |- *.
    assert (Em : st_min (stats_body iv j s) = Z.min (at7 iv j) (st_min s))
      by apply if_min.
    assert (EM : st_max (stats_body iv j s) = Z.max (at7 iv j) (st_max s))
      by apply if_max.
    rewrite Em, EM in IH.
    set (r := fold_left (fun acc i => stats_body iv i acc) l (stats_body iv j s)) in *.
    destruct IH as (Hall & Hmin & Hmax & Hamin & Hamax).
    split; [| split; [| split; [| split]]].
    + intros i [<- | Hi]; [lia | apply Hall, Hi].
    + lia.
    + lia.
    + destruct Hamin as [Heq | (i & Hi & Heq)].
      * destruct (Z.min_spec (at7 iv j) (st_min s)) as [[_ E]|[_ E]].
        -- right. exists j. split; [now left | congruence].
        -- left. congruence.
      * right. exists i. split; [now right | exact Heq].
    + destruct Hamax as [Heq | (i & Hi & Heq)].
      * destruct (Z.max_spec (at7 iv j) (st_max s)) as [[_ E]|[_ E]].
        -- left. congruence.
        -- right. exists j. split; [now left | congruence].
      * right. exists i. split; [now right | exact Heq].
Qed.

(** [range] is the largest difference between two elements. *)
Lemma range_of_spec (iv : IV7) (k : Z) :
  range_of iv <= k <->
  (forall x y, In x (elems iv) -> In y (elems iv) -> x - y <= k).
Proof.
  unfold range_of, statistics, for_range.
  pose proof (stats_loop_invariant iv (seq 0 (7 - 0))
    {| st_sum := 0; st_min := at7 iv 0; st_max := at7 iv 0 |}) as Hinv.
  cbv zeta in Hinv. cbn [st_min st_max] in Hinv.
  destruct Hinv as (Hall & _ & _ & Hamin & Hamax).
  assert (Hidx : forall i, In i (seq 0 (7 - 0)) -> In (at7 iv i) (elems iv)).
  { intros i Hi. apply in_seq in Hi. apply elems_at7. exists i. split; [lia | reflexivity]. }
  assert (H0 : In 0%nat (seq 0 (7 - 0))) by (apply in_seq; lia).
  split.
  - intros Hk x y Hx Hy.
    apply elems_at7 in Hx as (i & Hi & <-). apply elems_at7 in Hy as (j & Hj & <-).
    pose proof (Hall i ltac:(apply in_seq; lia)).
    pose proof (Hall j ltac:(apply in_seq; lia)). lia.
  - intros Hk.
    assert (Hmax : In (st_max (fold_left (fun acc i => stats_body iv i acc) (seq 0 (7 - 0))
              {| st_sum := 0; st_min := at7 iv 0; st_max := at7 iv 0 |})) (elems iv)).
    { destruct Hamax as [-> | (i & Hi & ->)]; auto. }
    assert (Hmin : In (st_min (fold_left (fun acc i => stats_body iv i acc) (seq 0 (7 - 0))
              {| st_sum := 0; st_min := at7 iv 0; st_max := at7 iv 0 |})) (elems iv)).
    { destruct Hamin as [-> | (i & Hi & ->)]; auto. }
    apply Hk; assumption.
Qed.

Lemma absdiff_square (x y : Z) : absdiff x y * absdiff x y = (x - y) ^ 2.
Proof. rewrite absdiff_abs, Z.abs_square. ring. Qed.

Lemma variance_of_spec (iv : IV7) :
  variance_of iv = population_variance (elems iv).
Proof.
  destruct iv as [a b c d e f g].
  unfold variance_of, varianceSum_of, population_variance, for_range.
  assert (Hmean : mean_of (MkIV7 a b c d e f g) = sumZ (elems (MkIV7 a b c d e f g)) / 7).
  { unfold mean_of, statistics, for_range, stats_body, sumZ.
    cbn [seq fold_left Nat.sub st_sum at7 elems nth foldr iv_0 iv_1 iv_2 iv_3 iv_4 iv_5 iv_6].
    f_equal. ring. }
  cbv zeta. rewrite <- Hmean. generalize (mean_of (MkIV7 a b c d e f g)) as m. intros m.
  cbn [seq fold_left Nat.sub at7 elems nth map foldr sumZ iv_0 iv_1 iv_2 iv_3 iv_4 iv_5 iv_6].
  unfold sumZ. cbn [foldr]. rewrite !absdiff_square. f_equal. ring.
Qed.

(** ** The checked arithmetic of the validator cannot revert

    Past the range check every intermediate value is far below [2 ^ 256],
    and the subtractions are guarded, so [validateIV7Data] has no panic
    path. *)

Lemma absdiff_square_bound (x m : Z) :
  0 <= x <= MAX_VALUE -> 0 <= m <= MAX_VALUE ->
  0 <= absdiff x m * absdiff x m <= MAX_VALUE * MAX_VALUE.
Proof.
  unfold MAX_VALUE. intros Hx Hm. rewrite absdiff_abs.
  assert (0 <= Z.abs (x - m) <= 3000) by lia. nia.
Qed.

Lemma validator_arithmetic_bounded (iv : IV7) :
  in_range iv = true ->
  0 <= st_sum (statistics iv) <= 7 * MAX_VALUE
  /\ 0 <= mean_of iv <= MAX_VALUE
  /\ 0 <= range_of iv <= MAX_VALUE
  /\ 0 <= varianceSum_of iv <= 7 * (MAX_VALUE * MAX_VALUE)
  /\ 7 * (MAX_VALUE * MAX_VALUE) <= uint256_max.
Proof.
  intros Hrange. apply in_range_true in Hrange.
  destruct iv as [a b c d e f g]. unfold elems in Hrange.
  cbn [iv_0 iv_1 iv_2 iv_3 iv_4 iv_5 iv_6] in Hrange.
  repeat match goal with
         | H : Forall _ (_ :: _) |- _ => apply Forall_cons_iff in H as [? H]
         end.
  clear Hrange. unfold MIN_VALUE in *.
  assert (Hsum : st_sum (statistics (MkIV7 a b c d e f g)) = a + b + c + d + e + f + g).
  { unfold statistics, for_range, stats_body.
    cbn [seq fold_left Nat.sub st_sum at7 elems nth iv_0 iv_1 iv_2 iv_3 iv_4 iv_5 iv_6].
    ring. }
  assert (Hmean : 0 <= mean_of (MkIV7 a b c d e f g) <= MAX_VALUE).
  { unfold mean_of. rewrite Hsum. unfold MAX_VALUE in *. split.
    - apply Z.div_pos; lia.
    - apply Z.div_le_upper_bound; lia. }
  split; [rewrite Hsum; unfold MAX_VALUE in *; lia |].
  split; [exact Hmean |].
  split.
  { unfold range_of, statistics, for_range, stats_body.
    cbn [seq fold_left Nat.sub st_min st_max at7 elems nth
         iv_0 iv_1 iv_2 iv_3 iv_4 iv_5 iv_6].
    rewrite !if_min, !if_max. unfold MAX_VALUE in *. lia. }
  split.
  { unfold varianceSum_of, for_range. cbv zeta.
    generalize dependent (mean_of (MkIV7 a b c d e f g)). intros m Hm.
    cbn [seq fold_left Nat.sub at7 elems nth iv_0 iv_1 iv_2 iv_3 iv_4 iv_5 iv_6].
    pose proof (absdiff_square_bound a m ltac:(lia) Hm).
    pose proof (absdiff_square_bound b m ltac:(lia) Hm).
    pose proof (absdiff_square_bound c m ltac:(lia) Hm).
    pose proof (absdiff_square_bound d m ltac:(lia) Hm).
    pose proof (absdiff_square_bound e m ltac:(lia) Hm).
    pose proof (absdiff_square_bound f m ltac:(lia) Hm).
    pose proof (absdiff_square_bound g m ltac:(lia) Hm).
    lia. }
  unfold MAX_VALUE, uint256_max. lia.
Qed.

(** ** The real-unit reading of the variance thresholds *)

Lemma variance_units_le (n k : Z) :
  (variance_units n <= variance_units k)%Q <-> n <= k.
Proof. unfold variance_units, Qle. cbn [Qnum Qden]. lia. Qed.

Lemma min_variance_units : (variance_units MIN_VARIANCE == 0.00005)%Q.
Proof. reflexivity. Qed.

Lemma max_variance_units : (variance_units MAX_VARIANCE == 0.0012)%Q.
Proof. reflexivity. Qed.

(** ** Validator claims *)

(** C6: [validateIV7Data] applied to [1000,1020,980,1015,985,1025,990]
    returns accepted with an empty reason, and the vector passes each of
    the six checks: range, spread, variance, monotonicity, uniqueness,
    alternation. *)
Theorem C6_sample_vector_accepted :
  validateIV7Data sample_vector = (true, "")
  /\ in_range sample_vector = true
  /\ range_of sample_vector <= MAX_RANGE
  /\ MIN_VARIANCE <= variance_of sample_vector <= MAX_VARIANCE
  /\ monotone_flags sample_vector = (false, false)
  /\ MIN_UNIQUE_VALUES <= uniqueCount_of sample_vector
  /\ alternations_of sample_vector <= MAX_ALTERNATIONS.
Proof.
  assert (Hvar : variance_of sample_vector = 277) by (vm_compute; reflexivity).
  assert (Hrng : range_of sample_vector = 45) by (vm_compute; reflexivity).
  assert (Huni : uniqueCount_of sample_vector = 7) by (vm_compute; reflexivity).
  assert (Halt : alternations_of sample_vector = 0) by (vm_compute; reflexivity).
  rewrite Hvar, Hrng, Huni, Halt. unfold MAX_RANGE, MIN_VARIANCE, MAX_VARIANCE,
    MIN_UNIQUE_VALUES, MAX_ALTERNATIONS.
  repeat split; try lia; vm_compute; reflexivity.
Qed.

(** C7: every 7-vector with at least one element strictly below 10 or
    strictly above 3000 is rejected with the out-of-range reason, whatever
    the other elements are; as the range check runs first, that is the
    whole result and no other reason can be reported. *)
Theorem C7_out_of_range_rejected (iv : IV7) :
  Exists (fun v => v < MIN_VALUE \/ MAX_VALUE < v) (elems iv) ->
  validateIV7Data iv = (false, "Value outside valid range").
Proof.
  intros Hex. unfold validateIV7Data.
  rewrite (in_range_false iv Hex). reflexivity.
Qed.

Lemma C7_out_of_range_rejected_witness :
  Exists (fun v => v < MIN_VALUE \/ MAX_VALUE < v)
         (elems (MkIV7 5 800 1500 900 1100 1300 1000))
  /\ validateIV7Data (MkIV7 5 800 1500 900 1100 1300 1000)
     = (false, "Value outside valid range").
Proof.
  split.
  - apply Exists_cons_hd. left. unfold MIN_VALUE. cbn. lia.
  - apply (C7_out_of_range_rejected (MkIV7 5 800 1500 900 1100 1300 1000)).
    apply Exists_cons_hd. left. unfold MIN_VALUE. cbn. lia.
Defined.

(** What the validator answers once the range and spread checks passed
    and the variance is above the maximum. *)
Lemma high_variance_reason (iv : IV7) :
  Forall (fun v => MIN_VALUE <= v <= MAX_VALUE) (elems iv) ->
  range_of iv <= MAX_RANGE ->
  MAX_VARIANCE < variance_of iv ->
  validateIV7Data iv = (false, "Variance too high - values too scattered").
Proof.
  intros Hrange Hspread Hvar. unfold validateIV7Data.
  apply in_range_true in Hrange. rewrite Hrange. cbn [negb].
  destruct (Z.gtb_spec (range_of iv) MAX_RANGE); [lia |].
  destruct (Z.ltb_spec (variance_of iv) MIN_VARIANCE);
    [unfold MIN_VARIANCE, MAX_VARIANCE in *; lia |].
  destruct (Z.gtb_spec (variance_of iv) MAX_VARIANCE); [reflexivity | lia].
Qed.

Lemma low_variance_reason (iv : IV7) :
  Forall (fun v => MIN_VALUE <= v <= MAX_VALUE) (elems iv) ->
  range_of iv <= MAX_RANGE ->
  variance_of iv < MIN_VARIANCE ->
  validateIV7Data iv = (false, "Variance too low - values too similar").
Proof.
  intros Hrange Hspread Hvar. unfold validateIV7Data.
  apply in_range_true in Hrange. rewrite Hrange. cbn [negb].
  destruct (Z.gtb_spec (range_of iv) MAX_RANGE); [lia |].
  destruct (Z.ltb_spec (variance_of iv) MIN_VARIANCE); [reflexivity | lia].
Qed.

(** The reasons of the checks that follow the variance check are all
    different from the two variance reasons. *)
Lemma mid_variance_reason (iv : IV7) :
  Forall (fun v => MIN_VALUE <= v <= MAX_VALUE) (elems iv) ->
  range_of iv <= MAX_RANGE ->
  MIN_VARIANCE <= variance_of iv <= MAX_VARIANCE ->
  snd (validateIV7Data iv) <> "Variance too low - values too similar"
  /\ snd (validateIV7Data iv) <> "Variance too high - values too scattered".
Proof.
  intros Hrange Hspread Hvar. unfold validateIV7Data.
  apply in_range_true in Hrange. rewrite Hrange. cbn [negb].
  destruct (Z.gtb_spec (range_of iv) MAX_RANGE); [lia |].
  destruct (Z.ltb_spec (variance_of iv) MIN_VARIANCE); [lia |].
  destruct (Z.gtb_spec (variance_of iv) MAX_VARIANCE); [lia |].
  destruct (fst (monotone_flags iv)); [split; discriminate |].
  destruct (snd (monotone_flags iv)); [split; discriminate |].
  destruct (uniqueCount_of iv <? MIN_UNIQUE_VALUES); [split; discriminate |].
  destruct (alternations_of iv >? MAX_ALTERNATIONS); split; discriminate.
Qed.

(** C5: the strictly monotonic vector [100,200,300,400,500,600,700] is
    rejected with the variance-too-high reason, not the monotonic one;
    and in general an in-range, in-spread 7-vector whose variance exceeds
    the maximum is rejected with the variance reason, entirely monotonic
    or not (nothing is assumed about its monotonicity flags). *)
Theorem C5_variance_before_monotonicity :
  (validateIV7Data monotonic_vector
     = (false, "Variance too high - values too scattered")
   /\ fst (monotone_flags monotonic_vector) = true)
  /\ forall iv : IV7,
       Forall (fun v => MIN_VALUE <= v <= MAX_VALUE) (elems iv) ->
       range_of iv <= MAX_RANGE ->
       MAX_VARIANCE < variance_of iv ->
       validateIV7Data iv = (false, "Variance too high - values too scattered").
Proof.
  split.
  - split; vm_compute; reflexivity.
  - intros iv Hrange Hspread Hvar.
    apply high_variance_reason; assumption.
Qed.

Lemma C5_variance_before_monotonicity_witness :
  Forall (fun v => MIN_VALUE <= v <= MAX_VALUE) (elems monotonic_vector)
  /\ range_of monotonic_vector <= MAX_RANGE
  /\ MAX_VARIANCE < variance_of monotonic_vector
  /\ monotone_flags monotonic_vector = (true, false)
  /\ validateIV7Data monotonic_vector
     = (false, "Variance too high - values too scattered").
Proof.
  assert (Hrange : Forall (fun v => MIN_VALUE <= v <= MAX_VALUE)
                          (elems monotonic_vector))
    by (apply in_range_true; vm_compute; reflexivity).
  assert (Hspread : range_of monotonic_vector <= MAX_RANGE)
    by (vm_compute; discriminate).
  assert (Hvar : MAX_VARIANCE < variance_of monotonic_vector)
    by (vm_compute; reflexivity).
  assert (Hflags : monotone_flags monotonic_vector = (true, false))
    by (vm_compute; reflexivity).
  refine (conj Hrange (conj Hspread (conj Hvar (conj Hflags _)))).
  exact (proj2 C5_variance_before_monotonicity monotonic_vector
           Hrange Hspread Hvar).
Defined.

(** C4 (as amended): for every 7-vector that passes the range and spread
    checks, the variance the contract computes is the population variance
    of the 7 scaled values (squared deviations from the truncated mean,
    truncated division), and the variance check compares that integer
    with the constants 50 and 1200 as they are: it accepts exactly when
    50 <= variance <= 1200, which is 0.00005 to 0.0012 in squared real
    units; below 50 the result is the variance-too-low reason, above 1200
    the variance-too-high reason, and in between neither variance
    reason. *)
Theorem C4_variance_window (iv : IV7) :
  Forall (fun v => MIN_VALUE <= v <= MAX_VALUE) (elems iv) ->
  range_of iv <= MAX_RANGE ->
  variance_of iv = population_variance (elems iv)
  /\ (variance_of iv < MIN_VARIANCE ->
      validateIV7Data iv = (false, "Variance too low - values too similar"))
  /\ (MAX_VARIANCE < variance_of iv ->
      validateIV7Data iv = (false, "Variance too high - values too scattered"))
  /\ (MIN_VARIANCE <= variance_of iv <= MAX_VARIANCE <->
      (snd (validateIV7Data iv) <> "Variance too low - values too similar"
       /\ snd (validateIV7Data iv) <> "Variance too high - values too scattered"))
  /\ (MIN_VARIANCE <= variance_of iv <= MAX_VARIANCE <->
      (0.00005 <= variance_units (variance_of iv) <= 0.0012)%Q).
Proof.
  intros Hrange Hspread.
  split; [apply variance_of_spec |].
  split; [intros H; apply low_variance_reason; assumption |].
  split; [intros H; apply high_variance_reason; assumption |].
  split.
  - split.
    + intros H. apply mid_variance_reason; assumption.
    + intros [Hnl Hnh].
      destruct (Z.lt_ge_cases (variance_of iv) MIN_VARIANCE) as [Hl|Hl].
      { rewrite (low_variance_reason iv Hrange Hspread Hl) in Hnl. now contradiction Hnl. }
      destruct (Z.lt_ge_cases MAX_VARIANCE (variance_of iv)) as [Hh|Hh].
      { rewrite (high_variance_reason iv Hrange Hspread Hh) in Hnh. now contradiction Hnh. }
      lia.
  - rewrite <- min_variance_units, <- max_variance_units, !variance_units_le.
    reflexivity.
Qed.

Lemma C4_variance_window_witness :
  Forall (fun v => MIN_VALUE <= v <= MAX_VALUE) (elems sample_vector)
  /\ range_of sample_vector <= MAX_RANGE
  /\ variance_of sample_vector = population_variance (elems sample_vector)
  /\ (MIN_VARIANCE <= variance_of sample_vector <= MAX_VARIANCE <->
      (snd (validateIV7Data sample_vector)
         <> "Variance too low - values too similar"
       /\ snd (validateIV7Data sample_vector)
         <> "Variance too high - values too scattered")).
Proof.
  assert (Hrange : Forall (fun v => MIN_VALUE <= v <= MAX_VALUE)
                          (elems sample_vector))
    by (apply in_range_true; vm_compute; reflexivity).
  assert (Hspread : range_of sample_vector <= MAX_RANGE)
    by (vm_compute; discriminate).
  pose proof (C4_variance_window sample_vector Hrange Hspread) as (H1 & _ & _ & H4 & _).
  exact (conj Hrange (conj Hspread (conj H1 H4))).
Defined.

(** C4 (as stated) fails: the sample vector passes the range and spread
    checks and its variance is 277 on the scaled values, that is 0.000277
    in squared real units, below 0.05; yet the variance check lets it
    through and the validator accepts it. *)
Lemma C4_sample_variance_below_real_threshold :
  Forall (fun v => MIN_VALUE <= v <= MAX_VALUE) (elems sample_vector)
  /\ range_of sample_vector <= MAX_RANGE
  /\ variance_of sample_vector = 277
  /\ (variance_units (variance_of sample_vector) == 0.000277)%Q
  /\ ~ (0.05 <= variance_units (variance_of sample_vector) <= 1.2)%Q
  /\ validateIV7Data sample_vector = (true, "")
  /\ validateIV7Data sample_vector
     <> (false, "Variance too low - values too similar").
Proof.
  assert (Hvar : variance_of sample_vector = 277) by (vm_compute; reflexivity).
  split; [apply in_range_true; vm_compute; reflexivity |].
  split; [vm_compute; discriminate |].
  split; [exact Hvar |].
  rewrite Hvar.
  split; [reflexivity |].
  split; [intros [Hlow _]; revert Hlow; unfold variance_units, Qle; cbn; lia |].
  split; [vm_compute; reflexivity | vm_compute; discriminate].
Qed.

(** C10: for every 7-vector, [validateIV7Data] never returns the
    too-many-alternations reason: a vector that reaches the alternation
    check has passed the variance check, so each element is within 91 of
    the mean, no adjacent pair differs by more than 1500, and the
    alternation count is 0 (second part: the variance is above the
    maximum or the count is 0). *)
Theorem C10_alternation_reason_unreachable (iv : IV7) :
  snd (validateIV7Data iv) <> "Too many extreme value alternations"
  /\ (MAX_VARIANCE < variance_of iv \/ alternations_of iv = 0).
Proof.
  split; [| destruct (Z.lt_ge_cases MAX_VARIANCE (variance_of iv));
            [left; assumption | right; apply alternations_zero; lia]].
  unfold validateIV7Data.
  destruct (negb (in_range iv)); [discriminate |].
  destruct (range_of iv >? MAX_RANGE); [discriminate |].
  destruct (variance_of iv <? MIN_VARIANCE); [discriminate |].
  destruct (Z.gtb_spec (variance_of iv) MAX_VARIANCE) as [Hv|Hv]; [discriminate |].
  destruct (fst (monotone_flags iv)); [discriminate |].
  destruct (snd (monotone_flags iv)); [discriminate |].
  destruct (uniqueCount_of iv <? MIN_UNIQUE_VALUES); [discriminate |].
  rewrite (alternations_zero iv Hv). cbn. discriminate.
Qed.

(** * Properties of admission and storage *)

Section ContractFacts.
Context {prim : Primitives}.

(** What a successful [verifyAndStore] has checked and written. *)
Lemma verifyAndStore_Ok env s report signature txId s' :
  verifyAndStore env s report signature = Ok (txId, s') ->
  fresh env s report = true
  /\ default false (usedIvHash s !! rep_ivHash report) = false
  /\ fst (validateIV7Data (rep_iv7Data report)) = true
  /\ ECDSA_recover (hashTypedDataV4 report) signature = Ok (oracleSigner s)
  /\ txId = keccak_txId (rep_ivHash report) (block_number env)
                        (block_timestamp env) (msg_sender env)
  /\ usedIvHash s' = <[rep_ivHash report := true]> (usedIvHash s)
  /\ ivRecords s' = <[txId := record_of env report]> (ivRecords s)
  /\ allRecords s' = allRecords s ++ [txId]
  /\ totalRecords s' = totalRecords s + 1
  /\ owner s' = owner s /\ oracleSigner s' = oracleSigner s
  /\ maxStaleness s' = maxStaleness s.
Proof.
  unfold verifyAndStore, require, mbind, result_bind. intros H.
  destruct (fresh env s report); [| discriminate H].
  destruct (default false (usedIvHash s !! rep_ivHash report)); [discriminate H |].
  cbn [negb] in H.
  destruct (validateIV7Data (rep_iv7Data report)) as [isValid reason].
  destruct isValid; [| discriminate H]. cbn [negb] in H.
  destruct (ECDSA_recover (hashTypedDataV4 report) signature) as [signer|e];
    [| discriminate H].
  destruct (Z.eqb_spec signer (oracleSigner s)) as [Heq|Hne]; [| discriminate H].
  rewrite Heq.
  destruct (totalRecords s =? uint256_max); [discriminate H |].
  injection H as <- <-. cbn. repeat split; reflexivity.
Qed.

(** The order of the checks of [verifyAndStore]. *)
Lemma verifyAndStore_stale env s report signature :
  fresh env s report = false ->
  verifyAndStore env s report signature = Err (Error "Report too stale").
Proof. unfold verifyAndStore. intros ->. reflexivity. Qed.

Lemma verifyAndStore_duplicate env s report signature :
  fresh env s report = true ->
  usedIvHash s !! rep_ivHash report = Some true ->
  verifyAndStore env s report signature = Err (Error "IV hash already used").
Proof. unfold verifyAndStore. intros -> ->. reflexivity. Qed.

Lemma verifyAndStore_invalid_vector env s report signature :
  fresh env s report = true ->
  default false (usedIvHash s !! rep_ivHash report) = false ->
  fst (validateIV7Data (rep_iv7Data report)) = false ->
  verifyAndStore env s report signature
  = Err (Error ("Validation failed: "
                +:+ snd (validateIV7Data (rep_iv7Data report)))).
Proof.
  unfold verifyAndStore. intros -> ->.
  destruct (validateIV7Data (rep_iv7Data report)) as [isValid reason].
  cbn [fst snd]. intros ->. reflexivity.
Qed.

Lemma verifyAndStore_wrong_signer env s report signature signer :
  fresh env s report = true ->
  default false (usedIvHash s !! rep_ivHash report) = false ->
  fst (validateIV7Data (rep_iv7Data report)) = true ->
  ECDSA_recover (hashTypedDataV4 report) signature = Ok signer ->
  signer <> oracleSigner s ->
  verifyAndStore env s report signature
  = Err (Error "Invalid oracle signature").
Proof.
  unfold verifyAndStore. intros -> ->.
  destruct (validateIV7Data (rep_iv7Data report)) as [isValid reason].
  cbn [fst]. intros -> Hrec Hne. cbn. unfold mbind, result_bind.
  rewrite Hrec. destruct (Z.eqb_spec signer (oracleSigner s)); [contradiction |].
  reflexivity.
Qed.

(** The signature is looked at only after the vector passed. *)
Lemma verifyAndStore_signature_error env s report signature :
  verifyAndStore env s report signature = Err (Error "Invalid oracle signature") ->
  fresh env s report = true
  /\ default false (usedIvHash s !! rep_ivHash report) = false
  /\ fst (validateIV7Data (rep_iv7Data report)) = true.
Proof.
  unfold verifyAndStore, require, mbind, result_bind. intros H.
  destruct (fresh env s report); [| discriminate H].
  destruct (default false (usedIvHash s !! rep_ivHash report)); [discriminate H |].
  destruct (validateIV7Data (rep_iv7Data report)) as [isValid reason].
  destruct isValid; [auto | discriminate H].
Qed.

(** ** What the transactions preserve *)

Lemma transact_cases s tx :
  transact s tx = s
  \/ (exists report signature txId,
        verifyAndStore (fst tx) s report signature = Ok (txId, transact s tx))
  \/ (usedIvHash (transact s tx) = usedIvHash s
      /\ ivRecords (transact s tx) = ivRecords s
      /\ allRecords (transact s tx) = allRecords s).
Proof.
  destruct tx as [env c]. unfold transact, call. cbn [fst snd].
  destruct c as [report signature | a | n | a |].
  - destruct (verifyAndStore env s report signature) as [[txId s']|e] eqn:E; cbn.
    + right. left. exists report, signature, txId. exact E.
    + left. reflexivity.
  - unfold updateOracleSigner, onlyOwner, require, mbind, result_bind.
    destruct (owner s =? msg_sender env); [right; right; cbn; auto | left; reflexivity].
  - unfold updateMaxStaleness, onlyOwner, require, mbind, result_bind.
    destruct (owner s =? msg_sender env); [right; right; cbn; auto | left; reflexivity].
  - unfold transferOwnership, onlyOwner, require, mbind, result_bind.
    destruct (owner s =? msg_sender env); [| left; reflexivity].
    destruct (negb (a =? 0)); [right; right; cbn; auto | left; reflexivity].
  - unfold renounceOwnership, onlyOwner, require, mbind, result_bind.
    destruct (owner s =? msg_sender env); [right; right; cbn; auto | left; reflexivity].
Qed.

(** A used [ivHash] stays used. *)
Lemma transact_used s tx h :
  usedIvHash s !! h = Some true -> usedIvHash (transact s tx) !! h = Some true.
Proof.
  intros Hused.
  destruct (transact_cases s tx) as [-> | [(report & signature & txId & Hok) | (-> & _)]];
    try assumption.
  apply verifyAndStore_Ok in Hok as (_ & _ & _ & _ & _ & -> & _).
  destruct (decide (rep_ivHash report = h)) as [->|Hne].
  - apply lookup_insert_eq.
  - rewrite lookup_insert_ne by assumption. exact Hused.
Qed.

Lemma run_used s txs h :
  usedIvHash s !! h = Some true -> usedIvHash (run s txs) !! h = Some true.
Proof.
  unfold run. revert s. induction txs as [|tx txs IH]; intros s Hused; cbn [fold_left].
  - exact Hused.
  - apply IH, transact_used, Hused.
Qed.

(** Appending keeps every listed vector valid. *)
Lemma verifyAndStore_all_valid env s report signature txId s' :
  all_valid s ->
  verifyAndStore env s report signature = Ok (txId, s') ->
  all_valid s'.
Proof.
  intros Hinv Hok.
  apply verifyAndStore_Ok in Hok
    as (_ & _ & Hvalid & _ & _ & _ & Hrec & Hall & _).
  intros tx Htx. unfold stored. rewrite Hrec.
  destruct (decide (txId = tx)) as [->|Hne].
  - rewrite lookup_insert_eq. exact Hvalid.
  - rewrite lookup_insert_ne by assumption.
    rewrite Hall in Htx. apply in_app_or in Htx as [Htx | [Htx | []]].
    + apply Hinv, Htx.
    + contradiction.
Qed.

Lemma transact_all_valid s tx : all_valid s -> all_valid (transact s tx).
Proof.
  intros Hinv.
  destruct (transact_cases s tx)
    as [-> | [(report & signature & txId & Hok) | (_ & Hrec & Hall)]].
  - exact Hinv.
  - eapply verifyAndStore_all_valid; eassumption.
  - intros txId Htx. unfold stored. rewrite Hrec. apply Hinv. rewrite <- Hall. exact Htx.
Qed.

Lemma run_all_valid s txs : all_valid s -> all_valid (run s txs).
Proof.
  unfold run. revert s. induction txs as [|tx txs IH]; intros s Hinv; cbn [fold_left].
  - exact Hinv.
  - apply IH, transact_all_valid, Hinv.
Qed.

Lemma transact_records_valid s tx : records_valid s -> records_valid (transact s tx).
Proof.
  intros Hinv.
  destruct (transact_cases s tx)
    as [-> | [(report & signature & txId & Hok) | (_ & Hrec & _)]].
  - exact Hinv.
  - apply verifyAndStore_Ok in Hok as (_ & _ & Hvalid & _ & _ & _ & Hrec & _).
    intros tx' r. rewrite Hrec.
    destruct (decide (txId = tx')) as [->|Hne].
    + rewrite lookup_insert_eq. intros [= <-]. exact Hvalid.
    + rewrite lookup_insert_ne by assumption. apply Hinv.
  - intros tx' r. rewrite Hrec. apply Hinv.
Qed.

Lemma run_records_valid s txs : records_valid s -> records_valid (run s txs).
Proof.
  unfold run. revert s. induction txs as [|tx txs IH]; intros s Hinv; cbn [fold_left].
  - exact Hinv.
  - apply IH, transact_records_valid, Hinv.
Qed.

End ContractFacts.

(** * Properties of the integrity walk *)

(** An index loop over an array is a fold over its elements. *)
Lemma for_range_lookup {A S : Type} (l : list A) (d : A)
    (f : A -> S -> S) (s : S) :
  for_range 0 (length l) (fun i acc => f (default d (l !! i)) acc) s
  = fold_left (fun acc x => f x acc) l s.
Proof.
  unfold for_range. rewrite Nat.sub_0_r.
  enough (Hgen : forall (p : list A) (s : S),
    fold_left (fun acc i => f (default d ((p ++ l) !! i)) acc)
              (seq (length p) (length l)) s
    = fold_left (fun acc x => f x acc) l s) by exact (Hgen [] s).
  clear s. induction l as [|x l IH]; intros p s.
  - reflexivity.
  - cbn [length seq fold_left].
    rewrite (list_lookup_middle p l x (length p) eq_refl). cbn [default].
    specialize (IH (p ++ [x]) (f x s)).
    rewrite <- app_assoc, length_app, Nat.add_1_r in IH. exact IH.
Qed.

Lemma count_fold {A : Type} (bad : A -> bool) (g : Z -> A -> Z)
    (l : list A) (a : Z) :
  (forall acc x, g acc x = if bad x then acc + 1 else acc) ->
  fold_left g l a = a + Z.of_nat (length (List.filter bad l)).
Proof.
  intros Hg. revert a.
  induction l as [|x l IH]; intros a; cbn [fold_left List.filter].
  - cbn. lia.
  - rewrite IH, Hg. destruct (bad x); cbn [length]; lia.
Qed.

Lemma invalidCount_of_spec (s : State) :
  invalidCount_of s = Z.of_nat (length (invalid_ids s)).
Proof.
  unfold invalidCount_of, invalid_ids.
  rewrite (for_range_lookup (allRecords s) 0
    (fun txId invalidCount =>
       let record := default zero_record (ivRecords s !! txId) in
       let '(recordValid, _) := validateIV7Data (iv7Data record) in
       if negb recordValid then invalidCount + 1 else invalidCount) 0).
  rewrite <- (Z.add_0_l (Z.of_nat _)). apply count_fold.
  intros acc txId. unfold stored. cbv zeta.
  destruct (validateIV7Data _) as [recordValid reason]. reflexivity.
Qed.

(** * The ledger claims *)

Lemma constructor_all_valid (deployer signer : Z) :
  all_valid (constructor deployer signer).
Proof. intros txId []. Qed.

Lemma all_valid_no_invalid_ids (s : State) : all_valid s -> invalid_ids s = [].
Proof.
  unfold all_valid, invalid_ids. intros Hinv.
  induction (allRecords s) as [|tx l IH]; cbn [List.filter].
  - reflexivity.
  - rewrite (Hinv tx (or_introl eq_refl)). cbn [negb].
    apply IH. intros tx' Htx'. apply Hinv. now right.
Qed.

Lemma verifyChainIntegrity_verdict (s : State) :
  verifyChainIntegrity s = verdict (Z.of_nat (length (invalid_ids s))).
Proof.
  unfold verifyChainIntegrity, verdict. rewrite invalidCount_of_spec. reflexivity.
Qed.

(** C9: starting from the empty ledger of a fresh deployment, after any
    sequence of transactions (any number of them successful
    [verifyAndStore] calls, the others reverted or owner calls),
    every id listed in the ledger and every record held in it has a
    vector that passes [validateIV7Data], and [verifyChainIntegrity]
    returns isValid = true and invalidCount = 0. *)
Theorem C9_chain_integrity_after_appends {prim : Primitives}
    (deployer signer : Z) (txs : list (Env * Call)) :
  all_valid (run (constructor deployer signer) txs)
  /\ records_valid (run (constructor deployer signer) txs)
  /\ verifyChainIntegrity (run (constructor deployer signer) txs)
     = Ok (true, 0, "All voiceprints valid").
Proof.
  assert (Hinv : all_valid (run (constructor deployer signer) txs))
    by apply run_all_valid, constructor_all_valid.
  split; [exact Hinv |].
  split; [apply run_records_valid; intros txId r; cbn; rewrite lookup_empty;
          discriminate |].
  rewrite verifyChainIntegrity_verdict, (all_valid_no_invalid_ids _ Hinv).
  reflexivity.
Qed.

(** C3 (as amended): for every transaction id that is not present in the
    ledger, [getRecord] does not fail: it returns the all-zero record
    (empty identity, zero pubkey and ivHash, zero vector, timestamp 0,
    block number 0, isValid false). *)
Theorem C3_absent_id_reads_zero_record (s : State) (txId : Z) :
  ivRecords s !! txId = None ->
  getRecord s txId = Ok zero_record.
Proof. unfold getRecord. intros ->. reflexivity. Qed.

Lemma C3_absent_id_reads_zero_record_witness :
  ivRecords deployed !! 12345 = None
  /\ getRecord deployed 12345 = Ok zero_record.
Proof.
  split.
  - reflexivity.
  - apply (C3_absent_id_reads_zero_record deployed 12345). reflexivity.
Defined.

(** C3 (as stated) fails: after two records were stored, looking up the
    id 5, which is not in the ledger, returns a record and no error. *)
Lemma C3_lookup_miss_returns_a_record :
  ~ In 5 (allRecords ledger_AC)
  /\ ivRecords ledger_AC !! 5 = None
  /\ getRecord ledger_AC 5 = Ok zero_record
  /\ forall e, getRecord ledger_AC 5 <> Err e.
Proof.
  split; [| split; [| split]].
  - vm_compute. intros [H | [H | []]]; discriminate H.
  - vm_compute. reflexivity.
  - vm_compute. reflexivity.
  - intros e. vm_compute. discriminate.
Qed.

(** C2 (as amended): admission checks freshness, then the duplicate
    hash, then runs the validator, and only then checks the oracle
    signature.  A report that is not fresh is rejected with the stale
    error and a fresh report under a used hash with the duplicate error,
    in both cases whatever its vector and its signature; a fresh, unused
    report whose vector the validator rejects is rejected with the
    validation error carrying the validator's reason, whatever its
    signature; one whose vector passes and whose signature recovers to
    another signer is rejected with the invalid-signature error; and the
    invalid-signature error is only ever reported for a fresh, unused
    report whose vector passed the validator. *)
Theorem C2_signature_checked_after_validator {prim : Primitives}
    (env : Env) (s : State) (report : IVReport) (signature : bytes) :
  (fresh env s report = false ->
   verifyAndStore env s report signature = Err (Error "Report too stale"))
  /\ (fresh env s report = true ->
      default false (usedIvHash s !! rep_ivHash report) = true ->
      verifyAndStore env s report signature = Err (Error "IV hash already used"))
  /\ (fresh env s report = true ->
      default false (usedIvHash s !! rep_ivHash report) = false ->
      fst (validateIV7Data (rep_iv7Data report)) = false ->
      verifyAndStore env s report signature
      = Err (Error ("Validation failed: "
                    +:+ snd (validateIV7Data (rep_iv7Data report)))))
  /\ (forall signer,
        fresh env s report = true ->
        default false (usedIvHash s !! rep_ivHash report) = false ->
        fst (validateIV7Data (rep_iv7Data report)) = true ->
        ECDSA_recover (hashTypedDataV4 report) signature = Ok signer ->
        signer <> oracleSigner s ->
        verifyAndStore env s report signature
        = Err (Error "Invalid oracle signature"))
  /\ (verifyAndStore env s report signature
      = Err (Error "Invalid oracle signature") ->
      fresh env s report = true
      /\ default false (usedIvHash s !! rep_ivHash report) = false
      /\ fst (validateIV7Data (rep_iv7Data report)) = true).
Proof.
  split; [apply verifyAndStore_stale |].
  split.
  { unfold verifyAndStore. intros -> ->. reflexivity. }
  split; [apply verifyAndStore_invalid_vector |].
  split.
  { intros signer Hfresh Hunused Hgood Hrec Hne.
    eapply verifyAndStore_wrong_signer; eassumption. }
  apply verifyAndStore_signature_error.
Qed.

(** A report that is stale, carries an out-of-range vector and is signed
    by account 1: the stale error wins. *)
Lemma C2_signature_checked_after_validator_witness :
  fresh env_2 deployed report_stale_bad = false
  /\ verifyAndStore (prim := packed_primitives) env_2 deployed
       report_stale_bad sig_other
     = Err (Error "Report too stale")
  /\ fresh env_1 deployed report_bad = true
  /\ default false (usedIvHash deployed !! rep_ivHash report_bad) = false
  /\ fst (validateIV7Data (rep_iv7Data report_bad)) = false
  /\ verifyAndStore (prim := packed_primitives) env_1 deployed report_bad sig_other
     = Err (Error ("Validation failed: "
                   +:+ snd (validateIV7Data (rep_iv7Data report_bad)))).
Proof.
  assert (Hstale : fresh env_2 deployed report_stale_bad = false) by reflexivity.
  assert (Hfresh : fresh env_1 deployed report_bad = true) by reflexivity.
  assert (Hunused : default false (usedIvHash deployed !! rep_ivHash report_bad) = false)
    by reflexivity.
  assert (Hbad : fst (validateIV7Data (rep_iv7Data report_bad)) = false)
    by (vm_compute; reflexivity).
  refine (conj Hstale (conj _ (conj Hfresh (conj Hunused (conj Hbad _))))).
  - exact (proj1 (C2_signature_checked_after_validator (prim := packed_primitives)
                    env_2 deployed report_stale_bad sig_other) Hstale).
  - exact (proj1 (proj2 (proj2 (C2_signature_checked_after_validator
                    (prim := packed_primitives) env_1 deployed report_bad sig_other)))
             Hfresh Hunused Hbad).
Defined.

(** C2 (as stated) fails: a fresh report under an unused hash, signed by
    account 1 instead of the oracle and carrying an out-of-range vector,
    is rejected with the validation error, not the invalid-signature
    error. *)
Lemma C2_invalid_signature_reported_as_validation_failure :
  fresh env_1 deployed report_bad = true
  /\ default false (usedIvHash deployed !! rep_ivHash report_bad) = false
  /\ ECDSA_recover (Primitives := packed_primitives)
       (hashTypedDataV4 (Primitives := packed_primitives) report_bad) sig_other = Ok 1
  /\ oracleSigner deployed = 200
  /\ validateIV7Data (rep_iv7Data report_bad) = (false, "Value outside valid range")
  /\ verifyAndStore (prim := packed_primitives) env_1 deployed report_bad sig_other
     = Err (Error "Validation failed: Value outside valid range")
  /\ verifyAndStore (prim := packed_primitives) env_1 deployed report_bad sig_other
     <> Err (Error "Invalid oracle signature").
Proof.
  repeat split; try (vm_compute; reflexivity).
  vm_compute. discriminate.
Qed.

(** C8 (as amended): once a [verifyAndStore] call with some ivHash has
    succeeded, every later [verifyAndStore] call whose report carries the
    same ivHash fails, whatever its other fields and whatever happened in
    between: with the duplicate error when the report is fresh, and with
    the stale error, from the freshness check that runs first, when it
    is not. *)
Theorem C8_used_hash_is_rejected {prim : Primitives}
    (s : State) (env1 : Env) (report1 : IVReport) (signature1 : bytes)
    (txId : Z) (s1 : State) (txs : list (Env * Call))
    (env2 : Env) (report2 : IVReport) (signature2 : bytes) :
  verifyAndStore env1 s report1 signature1 = Ok (txId, s1) ->
  rep_ivHash report2 = rep_ivHash report1 ->
  verifyAndStore env2 (run s1 txs) report2 signature2
  = Err (Error (if fresh env2 (run s1 txs) report2
                then "IV hash already used" else "Report too stale")).
Proof.
  intros Hok Hsame.
  apply verifyAndStore_Ok in Hok as (_ & _ & _ & _ & _ & Hused & _).
  assert (Hkept : usedIvHash (run s1 txs) !! rep_ivHash report2 = Some true).
  { apply run_used. rewrite Hused, Hsame. apply lookup_insert_eq. }
  destruct (fresh env2 (run s1 txs) report2) eqn:Hfresh.
  - apply verifyAndStore_duplicate; assumption.
  - apply verifyAndStore_stale; assumption.
Qed.

Lemma C8_used_hash_is_rejected_witness :
  verifyAndStore (prim := packed_primitives) env_1 deployed report_A sig_oracle
  = Ok (keccak_txId (Primitives := packed_primitives) 1001 1 1000 300, ledger_A)
  /\ rep_ivHash report_A_fresh = rep_ivHash report_A
  /\ verifyAndStore (prim := packed_primitives) env_2
       (run (prim := packed_primitives) ledger_A
          [(env_2, CallVerifyAndStore report_C sig_oracle)])
       report_A_fresh sig_other
     = Err (Error "IV hash already used").
Proof.
  assert (Hok : verifyAndStore (prim := packed_primitives) env_1 deployed
                  report_A sig_oracle
                = Ok (keccak_txId (Primitives := packed_primitives) 1001 1 1000 300,
                      ledger_A))
    by (vm_compute; reflexivity).
  assert (Hsame : rep_ivHash report_A_fresh = rep_ivHash report_A) by reflexivity.
  refine (conj Hok (conj Hsame _)).
  exact (C8_used_hash_is_rejected (prim := packed_primitives)
           deployed env_1 report_A sig_oracle _ ledger_A
           [(env_2, CallVerifyAndStore report_C sig_oracle)]
           env_2 report_A_fresh sig_other Hok Hsame).
Defined.

(** C8 (as stated) fails: after [report_A] was stored, a report with the
    same ivHash and a timestamp after the block is rejected with the
    stale error, not the duplicate error. *)
Lemma C8_used_hash_reported_as_stale :
  verifyAndStore (prim := packed_primitives) env_1 deployed report_A sig_oracle
  = Ok (keccak_txId (Primitives := packed_primitives) 1001 1 1000 300, ledger_A)
  /\ rep_ivHash report_A_again = rep_ivHash report_A
  /\ verifyAndStore (prim := packed_primitives) env_2 ledger_A
       report_A_again sig_oracle
     = Err (Error "Report too stale")
  /\ verifyAndStore (prim := packed_primitives) env_2 ledger_A
       report_A_again sig_oracle
     <> Err (Error "IV hash already used").
Proof.
  repeat split; try (vm_compute; reflexivity).
  vm_compute. discriminate.
Qed.

(** C1 (as amended): every record appended to the ledger is the last of
    the list, after the unchanged earlier ones, and stores the report's
    identity, pubkey, ivHash, vector and timestamp with the current block
    number and isValid = true, whatever the ledger held before: it stores
    no hash of its predecessor.  The chain-integrity verifier walks the
    stored ids in ascending order and re-runs the validator on each stored
    vector; it recomputes no hash, and its answer is the number of stored
    vectors the validator rejects, valid when that number is 0. *)
Theorem C1_appended_record_and_walk {prim : Primitives}
    (env : Env) (s : State) (report : IVReport) (signature : bytes)
    (txId : Z) (s' : State) :
  verifyAndStore env s report signature = Ok (txId, s') ->
  block_at s' (length (allRecords s)) = Some (record_of env report)
  /\ (forall n, (n < length (allRecords s))%nat ->
        allRecords s' !! n = allRecords s !! n)
  /\ verifyChainIntegrity s'
     = verdict (Z.of_nat (length
         (List.filter
            (fun id => negb (fst (validateIV7Data (iv7Data (stored s' id)))))
            (allRecords s')))).
Proof.
  intros Hok.
  apply verifyAndStore_Ok in Hok as (_ & _ & _ & _ & _ & _ & Hrec & Hall & _).
  split; [| split].
  - unfold block_at, stored. rewrite Hall, Hrec.
    rewrite (list_lookup_middle (allRecords s) [] txId _ eq_refl).
    cbn [fmap option_fmap option_map]. rewrite lookup_insert_eq. reflexivity.
  - intros n Hn. rewrite Hall. apply lookup_app_l. exact Hn.
  - apply verifyChainIntegrity_verdict.
Qed.

Lemma C1_appended_record_and_walk_witness :
  verifyAndStore (prim := packed_primitives) env_2 ledger_A report_C sig_oracle
  = Ok (keccak_txId (Primitives := packed_primitives) 1003 2 1010 300, ledger_AC)
  /\ block_at ledger_AC (length (allRecords ledger_A))
     = Some (record_of env_2 report_C).
Proof.
  assert (Hok : verifyAndStore (prim := packed_primitives) env_2 ledger_A
                  report_C sig_oracle
                = Ok (keccak_txId (Primitives := packed_primitives) 1003 2 1010 300,
                      ledger_AC))
    by (vm_compute; reflexivity).
  exact (conj Hok (proj1 (C1_appended_record_and_walk (prim := packed_primitives)
                            env_2 ledger_A report_C sig_oracle _ ledger_AC Hok))).
Defined.

(** C1 (as stated) fails: the record stored for [report_C] is the same
    after [report_A] as after [report_B], two different predecessors, and
    the verifier accepts both ledgers.  So whatever part of a stored
    record is read as its [previous_hash], and whatever [block_hash]
    tells the two predecessors apart, the two ledgers are not both
    linked. *)
Lemma C1_no_predecessor_hash_in_record :
  block_at ledger_AC 0 = Some (record_of env_1 report_A)
  /\ block_at ledger_BC 0 = Some (record_of env_1 report_B)
  /\ block_at ledger_AC 1 = Some (record_of env_2 report_C)
  /\ block_at ledger_BC 1 = Some (record_of env_2 report_C)
  /\ verifyChainIntegrity ledger_AC = Ok (true, 0, "All voiceprints valid")
  /\ verifyChainIntegrity ledger_BC = Ok (true, 0, "All voiceprints valid")
  /\ ~ (exists previous_hash block_hash : IVRecord -> Z,
          block_hash (record_of env_1 report_A)
            <> block_hash (record_of env_1 report_B)
          /\ hash_linked previous_hash block_hash ledger_AC
          /\ hash_linked previous_hash block_hash ledger_BC).
Proof.
  assert (HA0 : block_at ledger_AC 0 = Some (record_of env_1 report_A))
    by (vm_compute; reflexivity).
  assert (HB0 : block_at ledger_BC 0 = Some (record_of env_1 report_B))
    by (vm_compute; reflexivity).
  assert (HA1 : block_at ledger_AC 1 = Some (record_of env_2 report_C))
    by (vm_compute; reflexivity).
  assert (HB1 : block_at ledger_BC 1 = Some (record_of env_2 report_C))
    by (vm_compute; reflexivity).
  repeat split; try assumption; try (vm_compute; reflexivity).
  intros (previous_hash & block_hash & Hdiff & HlinkA & HlinkB).
  apply Hdiff.
  rewrite <- (HlinkA 0%nat _ _ HA0 HA1), <- (HlinkB 0%nat _ _ HB0 HB1).
  reflexivity.
Qed.

(** * Loops of the validator, declaratively *)

Lemma for_range_invariant {S : Type} (P : nat -> S -> Prop)
    (lo hi : nat) (body : nat -> S -> S) (s : S) :
  (lo <= hi)%nat -> P lo s ->
  (forall i acc, (lo <= i < hi)%nat -> P i acc -> P (Datatypes.S i) (body i acc)) ->
  P hi (for_range lo hi body s).
Proof.
  unfold for_range. intros Hle Hinit Hstep.
  replace hi with (lo + (hi - lo))%nat at 1 by lia.
  assert (Hn : (lo + (hi - lo) <= hi)%nat) by lia.
  revert Hn. generalize (hi - lo)%nat as n. intros n. revert lo s Hle Hinit Hstep.
  induction n as [|n IH]; intros lo s Hle Hinit Hstep Hn; cbn [seq fold_left].
  - rewrite Nat.add_0_r. exact Hinit.
  - replace (lo + Datatypes.S n)%nat with (Datatypes.S lo + n)%nat by lia.
    apply IH.
    + lia.
    + apply Hstep; [lia | exact Hinit].
    + intros i acc Hi. apply Hstep. lia.
    + lia.
Qed.

Lemma at7_lookup (iv : IV7) (i : nat) :
  (i < 7)%nat -> elems iv !! i = Some (at7 iv i).
Proof.
  intros Hi. unfold at7. rewrite nth_lookup.
  destruct (elems iv !! i) eqn:E; [reflexivity |].
  apply lookup_ge_None in E. destruct iv; cbn in E. lia.
Qed.

Lemma length_elems (iv : IV7) : length (elems iv) = 7%nat.
Proof. reflexivity. Qed.

(** The marks after the inner loop. *)
Lemma mark_duplicates_spec (iv : IV7) (i : nat) (counted : list bool) :
  length (mark_duplicates iv i counted) = length counted
  /\ forall j, (j < length counted)%nat ->
       mark_duplicates iv i counted !!! j
       = counted !!! j
         || ((i <? j)%nat && (j <? 7)%nat && (at7 iv i =? at7 iv j)).
Proof.
  unfold mark_duplicates.
  destruct (le_lt_dec 7 i) as [Hge|Hlt].
  { unfold for_range. replace (7 - (i + 1))%nat with 0%nat by lia. cbn [seq fold_left].
    split; [reflexivity |]. intros j Hj.
    destruct (Nat.ltb_spec i j), (Nat.ltb_spec j 7); try lia; cbn; now rewrite orb_false_r. }
  pose proof (for_range_invariant
    (fun hi c => length c = length counted
       /\ forall j, (j < length counted)%nat ->
            c !!! j = counted !!! j
                      || ((i <? j)%nat && (j <? hi)%nat && (at7 iv i =? at7 iv j)))
    (i + 1) 7
    (fun j counted =>
       if at7 iv i =? at7 iv j then <[j := true]> counted else counted)
    counted ltac:(lia)) as Hloop.
  apply Hloop; clear Hloop.
  - split; [reflexivity |]. intros j Hj.
    destruct (Nat.ltb_spec i j), (Nat.ltb_spec j (i + 1)); try lia; cbn;
      now rewrite orb_false_r.
  - intros k c Hk [Hlen Hc]. split.
    + destruct (at7 iv i =? at7 iv k); [rewrite length_insert |]; exact Hlen.
    + intros j Hj. destruct (decide (j = k)) as [->|Hne].
      * destruct (Nat.ltb_spec i k); [| lia].
        destruct (Nat.ltb_spec k (Datatypes.S k)); [| lia]. cbn [andb].
        destruct (at7 iv i =? at7 iv k) eqn:E.
        -- rewrite list_lookup_total_insert_eq by lia. now rewrite orb_true_r.
        -- rewrite Hc by lia. rewrite Nat.ltb_irrefl, andb_false_r. reflexivity.
      * assert (Hb : (j <? Datatypes.S k)%nat && (at7 iv i =? at7 iv j)
                     = (j <? k)%nat && (at7 iv i =? at7 iv j)).
        { destruct (Nat.ltb_spec j (Datatypes.S k)), (Nat.ltb_spec j k); try lia; reflexivity. }
        rewrite <- !andb_assoc, Hb, !andb_assoc.
        destruct (at7 iv i =? at7 iv k).
        -- rewrite list_lookup_total_insert_ne by congruence. apply Hc, Hj.
        -- apply Hc, Hj.
Qed.

Lemma size_list_to_set_snoc (l : list Z) (x : Z) :
  size (list_to_set (l ++ [x]) : gset Z)
  = if bool_decide (x ∈ l) then size (list_to_set l : gset Z)
    else Datatypes.S (size (list_to_set l : gset Z)).
Proof.
  rewrite list_to_set_snoc_L. case_bool_decide as Hin.
  - f_equal. apply set_eq. intros y.
    rewrite elem_of_union, elem_of_singleton, elem_of_list_to_set.
    split; [intros [H | ->]; assumption | auto].
  - rewrite size_union, size_singleton; [lia |].
    intros y Hy1 Hy2. apply elem_of_singleton in Hy2 as ->.
    apply elem_of_list_to_set in Hy1. contradiction.
Qed.

Lemma take_succ_elems (iv : IV7) (i : nat) :
  (i < 7)%nat -> take (Datatypes.S i) (elems iv) = take i (elems iv) ++ [at7 iv i].
Proof. intros Hi. apply take_S_r, at7_lookup, Hi. Qed.

Lemma unique_invariant_step (iv : IV7) (i : nat) (st : Z * list bool) :
  (i < 7)%nat ->
  unique_invariant iv i st ->
  unique_invariant iv (Datatypes.S i)
    (let '(uniqueCount, counted) := st in
     if negb (counted !!! i)
     then (uniqueCount + 1, mark_duplicates iv i counted)
     else (uniqueCount, counted)).
Proof.
  intros Hi. destruct st as [cnt counted]. unfold unique_invariant. cbn [fst snd].
  intros (Hlen & Hcnt & Hmarks).
  pose proof (Hmarks i Hi) as Hself. rewrite Nat.min_id in Hself.
  pose proof (size_list_to_set_snoc (take i (elems iv)) (at7 iv i)) as Hsize.
  rewrite <- take_succ_elems in Hsize by exact Hi.
  assert (Hlater : forall j, (i < j)%nat ->
            at7 iv j ∈ take (Datatypes.S i) (elems iv)
            <-> at7 iv j ∈ take i (elems iv) \/ at7 iv i = at7 iv j).
  { intros j Hj. rewrite take_succ_elems by exact Hi.
    rewrite elem_of_app, list_elem_of_singleton. split; intros [H|H]; auto. }
  rewrite <- Hself in Hsize.
  destruct (counted !!! i) eqn:Hci; cbn [negb fst snd].
  - (* an earlier element has this value *)
    symmetry in Hself. apply bool_decide_eq_true_1 in Hself.
    split; [exact Hlen |]. split; [rewrite Hsize; exact Hcnt |].
    intros j Hj. rewrite (Hmarks j Hj).
    destruct (le_lt_dec j i) as [Hle|Hgt].
    + replace (Datatypes.S i `min` j)%nat with (i `min` j)%nat by lia. reflexivity.
    + replace (Datatypes.S i `min` j)%nat with (Datatypes.S i) by lia.
      replace (i `min` j)%nat with i by lia.
      apply bool_decide_ext. rewrite (Hlater j Hgt). split; [auto |].
      intros [H | <-]; assumption.
  - (* a new value *)
    destruct (mark_duplicates_spec iv i counted) as [Hlen' Hmarks'].
    split; [rewrite Hlen'; exact Hlen |].
    split; [rewrite Hsize, Hcnt; lia |].
    intros j Hj. rewrite Hmarks' by lia. rewrite (Hmarks j Hj).
    destruct (le_lt_dec j i) as [Hle|Hgt].
    + replace (Datatypes.S i `min` j)%nat with (i `min` j)%nat by lia.
      destruct (Nat.ltb_spec i j); [lia |]. cbn. now rewrite orb_false_r.
    + replace (Datatypes.S i `min` j)%nat with (Datatypes.S i) by lia.
      replace (i `min` j)%nat with i by lia.
      destruct (Nat.ltb_spec i j); [| lia]. destruct (Nat.ltb_spec j 7); [| lia].
      cbn [andb].
      rewrite (bool_decide_ext _ _ (Hlater j Hgt)).
      destruct (Z.eqb_spec (at7 iv i) (at7 iv j)) as [Heq|Hne].
      * rewrite orb_true_r. symmetry. apply bool_decide_eq_true_2. now right.
      * rewrite orb_false_r. apply bool_decide_ext. split; [auto |].
        intros [Hin | Heq]; [exact Hin | contradiction].
Qed.

Lemma uniqueCount_of_distinct (iv : IV7) :
  uniqueCount_of iv = Z.of_nat (distinct_values iv).
Proof.
  unfold uniqueCount_of, distinct_values.
  pose proof (for_range_invariant (unique_invariant iv) 0 7
    (fun i '(uniqueCount, counted) =>
       if negb (counted !!! i)
       then (uniqueCount + 1, mark_duplicates iv i counted)
       else (uniqueCount, counted))
    (0, replicate 7 false) ltac:(lia)) as Hloop.
  destruct Hloop as (_ & Hcnt & _).
  - split; [reflexivity |]. split; [reflexivity |].
    intros j Hj. cbn [snd Nat.min take].
    rewrite bool_decide_eq_false_2 by apply not_elem_of_nil.
    apply list_lookup_total_correct, lookup_replicate_2, Hj.
  - intros i acc Hi Hinv. apply (unique_invariant_step iv i acc); [lia | exact Hinv].
  - rewrite Hcnt. rewrite take_ge by (rewrite length_elems; lia). reflexivity.
Qed.

Lemma sorted7 (R : Z -> Z -> Prop) (a b c d e f g : Z) :
  Sorted R [a; b; c; d; e; f; g] <-> R a b /\ R b c /\ R c d /\ R d e /\ R e f /\ R f g.
Proof.
  split.
  - intros H.
    repeat match goal with
           | H : Sorted _ (_ :: _) |- _ => apply Sorted_inv in H as [H ?]
           | H : HdRel _ _ (_ :: _) |- _ => apply HdRel_inv in H
           end.
    tauto.
  - intros (? & ? & ? & ? & ? & ?). repeat constructor; assumption.
Qed.

Lemma monotone_fold (iv : IV7) (l : list nat) (inc dec : bool) :
  fold_left
    (fun acc i =>
       (fun '(isIncreasing, isDecreasing) =>
          (if at7 iv i >? at7 iv (i + 1) then false else isIncreasing,
           if at7 iv i <? at7 iv (i + 1) then false else isDecreasing)) acc)
    l (inc, dec)
  = (inc && forallb (fun i => at7 iv i <=? at7 iv (i + 1)) l,
     dec && forallb (fun i => at7 iv i >=? at7 iv (i + 1)) l).
Proof.
  revert inc dec. induction l as [|i l IH]; intros inc dec; cbn [fold_left forallb].
  - now rewrite !andb_true_r.
  - rewrite IH. f_equal.
    + destruct (Z.gtb_spec (at7 iv i) (at7 iv (i + 1))),
               (Z.leb_spec (at7 iv i) (at7 iv (i + 1))); try lia;
        cbn [andb]; rewrite ?andb_false_r; reflexivity.
    + destruct (Z.ltb_spec (at7 iv i) (at7 iv (i + 1))),
               (Z.geb_spec (at7 iv i) (at7 iv (i + 1))); try lia;
        cbn [andb]; rewrite ?andb_false_r; reflexivity.
Qed.

Lemma monotone_flags_spec (iv : IV7) :
  (fst (monotone_flags iv) = true <-> Sorted Z.le (elems iv))
  /\ (snd (monotone_flags iv) = true <-> Sorted Z.ge (elems iv)).
Proof.
  unfold monotone_flags, for_range. rewrite (monotone_fold iv (seq 0 (6 - 0)) true true).
  destruct iv as [a b c d e f g]. unfold elems.
  cbn [iv_0 iv_1 iv_2 iv_3 iv_4 iv_5 iv_6]. rewrite !sorted7.
  cbn [fst snd andb seq forallb Nat.sub Nat.add at7 elems nth
       iv_0 iv_1 iv_2 iv_3 iv_4 iv_5 iv_6].
  rewrite !andb_true_iff, !Z.leb_le, !Z.geb_le. split; split; lia.
Qed.

(** Past the upper variance bound any two elements are within 182. *)
Lemma pairwise_close (iv : IV7) (x y : Z) :
  variance_of iv <= MAX_VARIANCE ->
  In x (elems iv) -> In y (elems iv) -> x - y <= 182.
Proof.
  intros Hvar Hx Hy.
  apply elems_at7 in Hx as (i & Hi & <-). apply elems_at7 in Hy as (j & Hj & <-).
  pose proof (deviation_bound iv i Hi Hvar). pose proof (deviation_bound iv j Hj Hvar).
  lia.
Qed.

Lemma spread_check_redundant (iv : IV7) :
  variance_of iv <= MAX_VARIANCE -> (range_of iv >? MAX_RANGE) = false.
Proof.
  intros Hvar.
  assert (range_of iv <= 182) by (apply range_of_spec; intros x y; apply pairwise_close, Hvar).
  destruct (Z.gtb_spec (range_of iv) MAX_RANGE); [unfold MAX_RANGE in *; lia | reflexivity].
Qed.

Lemma validate_accepts_iff (iv : IV7) :
  (validateIV7Data iv = (true, "") <-> fst (validateIV7Data iv) = true)
  /\ (fst (validateIV7Data iv) = true <->
      Forall (fun v => MIN_VALUE <= v <= MAX_VALUE) (elems iv)
      /\ MIN_VARIANCE <= population_variance (elems iv) <= MAX_VARIANCE
      /\ ~ Sorted Z.le (elems iv)
      /\ ~ Sorted Z.ge (elems iv)
      /\ (4 <= distinct_values iv)%nat).
Proof.
  destruct (monotone_flags_spec iv) as [Hinc Hdec].
  rewrite <- in_range_true, <- variance_of_spec.
  unfold validateIV7Data.
  destruct (in_range iv); cbn [negb fst];
    [| split; split; try discriminate; intros (? & _); discriminate].
  destruct (Z.ltb_spec (variance_of iv) MIN_VARIANCE) as [Hlo|Hlo].
  { destruct (range_of iv >? MAX_RANGE); cbn [fst];
      (split; split; try discriminate; intros (_ & ? & _); lia). }
  destruct (Z.gtb_spec (variance_of iv) MAX_VARIANCE) as [Hhi|Hhi].
  { destruct (range_of iv >? MAX_RANGE); cbn [fst];
      (split; split; try discriminate; intros (_ & ? & _); lia). }
  rewrite (spread_check_redundant iv) by lia.
  rewrite (alternations_zero iv) by lia.
  rewrite uniqueCount_of_distinct.
  destruct (fst (monotone_flags iv)); cbn [fst].
  { split; split; try discriminate. intros (_ & _ & Hn & _). exfalso. apply Hn, Hinc. reflexivity. }
  destruct (snd (monotone_flags iv)); cbn [fst].
  { split; split; try discriminate. intros (_ & _ & _ & Hn & _). exfalso. apply Hn, Hdec. reflexivity. }
  destruct (Z.ltb_spec (Z.of_nat (distinct_values iv)) MIN_UNIQUE_VALUES) as [Hu|Hu];
    unfold MIN_UNIQUE_VALUES in Hu; cbn [fst].
  { split; split; try discriminate. intros (_ & _ & _ & _ & ?). lia. }
  split; [split; reflexivity |]. split; [| reflexivity].
  intros _. repeat split; try lia.
  - intros Hs. apply Hinc in Hs. discriminate.
  - intros Hs. apply Hdec in Hs. discriminate.
Qed.

Lemma sumZ_reversed (iv : IV7) (h : Z -> Z) :
  sumZ (map h (elems (reversed iv))) = sumZ (map h (elems iv)).
Proof. destruct iv as [a b c d e f g]. unfold sumZ. cbn. ring. Qed.


(** * Further properties of the validator *)

(** X1: the nested uniqueness loops count the distinct values of the
    vector: [uniqueCount] is the size of the set of its seven elements. *)
Theorem uniqueCount_counts_distinct_values (iv : IV7) :
  uniqueCount_of iv = Z.of_nat (distinct_values iv)
  /\ 1 <= uniqueCount_of iv <= 7.
Proof.
  rewrite uniqueCount_of_distinct. split; [reflexivity |].
  unfold distinct_values.
  assert (Hle : (size (list_to_set (elems iv) : gset Z) <= length (elems iv))%nat).
  { generalize (elems iv) as l. intros l. induction l as [|x l IH]; cbn [list_to_set length].
    - rewrite size_empty. lia.
    - pose proof (size_union_alt ({[x]} : gset Z) (list_to_set l)) as Hs.
      rewrite size_singleton in Hs.
      assert (size (list_to_set l ∖ {[x]} : gset Z) <= size (list_to_set l : gset Z))%nat
        by (apply subseteq_size, subseteq_difference_l; reflexivity).
      lia. }
  assert (Hpos : size (list_to_set (elems iv) : gset Z) <> 0%nat).
  { intros Hz. apply size_empty_inv in Hz.
    assert (Hin : iv_0 iv ∈ (list_to_set (elems iv) : gset Z))
      by (apply elem_of_list_to_set; left).
    rewrite Hz in Hin. revert Hin. apply not_elem_of_empty. }
  rewrite length_elems in Hle. lia.
Qed.

(** X2: the monotonic-pattern loop computes sortedness of the vector:
    [isIncreasing] holds exactly when the seven values are non-decreasing
    and [isDecreasing] exactly when they are non-increasing, so a plateau
    does not break a monotonic pattern. *)
Theorem monotone_flags_are_sortedness (iv : IV7) :
  (fst (monotone_flags iv) = true <-> Sorted Z.le (elems iv))
  /\ (snd (monotone_flags iv) = true <-> Sorted Z.ge (elems iv)).
Proof. apply monotone_flags_spec. Qed.

(** X3: the validator accepts a vector exactly when all its values are
    in [10, 3000], its population variance is in [50, 1200], it is neither
    non-decreasing nor non-increasing, and it has at least 4 distinct
    values; the spread and alternation checks never decide acceptance.
    An accepted vector always comes with the empty reason. *)
Theorem validator_acceptance_criterion (iv : IV7) :
  (validateIV7Data iv = (true, "") <-> fst (validateIV7Data iv) = true)
  /\ (fst (validateIV7Data iv) = true <->
      Forall (fun v => MIN_VALUE <= v <= MAX_VALUE) (elems iv)
      /\ MIN_VARIANCE <= population_variance (elems iv) <= MAX_VARIANCE
      /\ ~ Sorted Z.le (elems iv)
      /\ ~ Sorted Z.ge (elems iv)
      /\ (4 <= distinct_values iv)%nat).
Proof. apply validate_accepts_iff. Qed.

(** X4: every vector the validator accepts is tightly clustered: each
    value is within 91 of the truncated mean and any two values differ by
    at most 182 (0.182 units), far inside the 2500 spread limit. *)
Theorem accepted_vector_is_clustered (iv : IV7) (x y : Z) :
  fst (validateIV7Data iv) = true ->
  In x (elems iv) -> In y (elems iv) ->
  Z.abs (x - y) <= 182 /\ Z.abs (x - mean_of iv) <= 91.
Proof.
  intros Hacc Hx Hy.
  apply validate_accepts_iff in Hacc as (_ & Hvar & _).
  rewrite <- variance_of_spec in Hvar.
  pose proof (pairwise_close iv x y ltac:(lia) Hx Hy).
  pose proof (pairwise_close iv y x ltac:(lia) Hy Hx).
  split; [lia |].
  apply elems_at7 in Hx as (i & Hi & <-). apply deviation_bound; [exact Hi | lia].
Qed.

Lemma accepted_vector_is_clustered_witness :
  fst (validateIV7Data sample_vector) = true
  /\ In 1025 (elems sample_vector) /\ In 980 (elems sample_vector)
  /\ Z.abs (1025 - 980) <= 182 /\ Z.abs (1025 - mean_of sample_vector) <= 91.
Proof.
  assert (Hacc : fst (validateIV7Data sample_vector) = true) by (vm_compute; reflexivity).
  assert (Hx : In 1025 (elems sample_vector)) by (cbn; tauto).
  assert (Hy : In 980 (elems sample_vector)) by (cbn; tauto).
  exact (conj Hacc (conj Hx (conj Hy
           (accepted_vector_is_clustered sample_vector 1025 980 Hacc Hx Hy)))).
Defined.

(** X5: a vector of seven equal values is always rejected: as out of
    range when the value is outside [10, 3000], and otherwise for its
    variance, which is 0. *)
Theorem constant_vector_rejected (v : Z) :
  validateIV7Data (constant_vector v)
  = if (v <? MIN_VALUE) || (v >? MAX_VALUE)
    then (false, "Value outside valid range")
    else (false, "Variance too low - values too similar").
Proof.
  unfold validateIV7Data.
  assert (Hr : in_range (constant_vector v) = negb ((v <? MIN_VALUE) || (v >? MAX_VALUE))).
  { unfold in_range. cbn [seq range_loop at7 constant_vector elems nth
                           iv_0 iv_1 iv_2 iv_3 iv_4 iv_5 iv_6].
    destruct ((v <? MIN_VALUE) || (v >? MAX_VALUE)); reflexivity. }
  rewrite Hr, negb_involutive.
  destruct ((v <? MIN_VALUE) || (v >? MAX_VALUE)); [reflexivity |].
  assert (Hrange : range_of (constant_vector v) = 0).
  { unfold range_of, statistics, for_range, stats_body.
    cbn [seq fold_left Nat.sub st_min st_max at7 constant_vector elems nth
         iv_0 iv_1 iv_2 iv_3 iv_4 iv_5 iv_6].
    rewrite !if_min, !if_max. lia. }
  assert (Hvar : variance_of (constant_vector v) = 0).
  { rewrite variance_of_spec. unfold population_variance, sumZ.
    cbn [constant_vector elems map foldr iv_0 iv_1 iv_2 iv_3 iv_4 iv_5 iv_6].
    replace (v + (v + (v + (v + (v + (v + (v + 0))))))) with (v * 7) by ring.
    rewrite Z.div_mul by lia. replace (v - v) with 0 by ring. reflexivity. }
  rewrite Hrange, Hvar. reflexivity.
Qed.

(** X6: the validator gives a vector and its mirror image the same
    verdict (the reason can differ: increasing becomes decreasing). *)
Theorem reversed_vector_same_verdict (iv : IV7) :
  fst (validateIV7Data (reversed iv)) = fst (validateIV7Data iv).
Proof.
  assert (Hiff : fst (validateIV7Data (reversed iv)) = true
                 <-> fst (validateIV7Data iv) = true).
  { rewrite !(proj2 (validate_accepts_iff _)).
    assert (Hel : elems (reversed iv) = rev (elems iv))
      by (destruct iv as [a b c d e f g]; reflexivity).
    assert (Hvar : population_variance (elems (reversed iv))
                   = population_variance (elems iv)).
    { unfold population_variance. cbv zeta.
      pose proof (sumZ_reversed iv (fun x => x)) as Hs. rewrite !map_id in Hs.
      rewrite Hs. rewrite sumZ_reversed. reflexivity. }
    assert (Hdist : distinct_values (reversed iv) = distinct_values iv).
    { unfold distinct_values. f_equal. apply set_eq. intros x.
      rewrite !elem_of_list_to_set, Hel. rewrite !list_elem_of_In.
      symmetry. apply in_rev. }
    rewrite Hvar, Hdist.
    assert (Hfor : Forall (fun v => MIN_VALUE <= v <= MAX_VALUE) (elems (reversed iv))
                   <-> Forall (fun v => MIN_VALUE <= v <= MAX_VALUE) (elems iv)).
    { rewrite Hel, !List.Forall_forall. split; intros H x Hx; apply H.
      - now apply in_rev in Hx.
      - now apply in_rev. }
    assert (Hle : Sorted Z.le (elems (reversed iv)) <-> Sorted Z.ge (elems iv)).
    { destruct iv as [a b c d e f g]. unfold reversed, elems.
      cbn [iv_0 iv_1 iv_2 iv_3 iv_4 iv_5 iv_6]. rewrite !sorted7. lia. }
    assert (Hge : Sorted Z.ge (elems (reversed iv)) <-> Sorted Z.le (elems iv)).
    { destruct iv as [a b c d e f g]. unfold reversed, elems.
      cbn [iv_0 iv_1 iv_2 iv_3 iv_4 iv_5 iv_6]. rewrite !sorted7. lia. }
    rewrite Hfor, Hle, Hge. tauto. }
  destruct (fst (validateIV7Data (reversed iv))), (fst (validateIV7Data iv));
    try reflexivity.
  - symmetry. now apply Hiff.
  - now apply Hiff.
Qed.

(** X7: past the range check the checked arithmetic of the validator
    cannot overflow: the sum is at most 21000, the mean and the spread at
    most 3000 and the sum of squares at most 63000000, all below
    2^256 - 1, so [validateIV7Data] never panics. *)
Theorem validator_never_overflows (iv : IV7) :
  Forall (fun v => MIN_VALUE <= v <= MAX_VALUE) (elems iv) ->
  0 <= st_sum (statistics iv) <= 21000
  /\ 0 <= mean_of iv <= 3000
  /\ 0 <= range_of iv <= 3000
  /\ 0 <= varianceSum_of iv <= 63000000
  /\ 63000000 <= uint256_max.
Proof.
  intros Hrange. apply in_range_true in Hrange.
  pose proof (validator_arithmetic_bounded iv Hrange) as H.
  unfold MAX_VALUE in H. exact H.
Qed.

Lemma validator_never_overflows_witness :
  Forall (fun v => MIN_VALUE <= v <= MAX_VALUE) (elems monotonic_vector)
  /\ 0 <= varianceSum_of monotonic_vector <= 63000000.
Proof.
  assert (Hrange : Forall (fun v => MIN_VALUE <= v <= MAX_VALUE)
                          (elems monotonic_vector))
    by (apply in_range_true; vm_compute; reflexivity).
  exact (conj Hrange
           (proj1 (proj2 (proj2 (proj2
              (validator_never_overflows monotonic_vector Hrange)))))).
Defined.

(** X8: the statistics loop computes the spread of the vector: [range]
    is at most [k] exactly when no two of the seven values differ by more
    than [k]. *)
Theorem spread_is_largest_difference (iv : IV7) (k : Z) :
  range_of iv <= k <->
  (forall x y, In x (elems iv) -> In y (elems iv) -> x - y <= k).
Proof. apply range_of_spec. Qed.

(** * The indexes of the ledger *)

Section LedgerFacts.
Context {prim : Primitives}.

Lemma run_invariant (P : State -> Prop) :
  (forall s tx, P s -> P (transact s tx)) ->
  forall s txs, P s -> P (run s txs).
Proof.
  intros Hstep s txs. unfold run. revert s.
  induction txs as [|tx txs IH]; intros s Hs; cbn [fold_left]; [exact Hs |].
  apply IH, Hstep, Hs.
Qed.

Lemma run_app s txs1 txs2 : run s (txs1 ++ txs2) = run (run s txs1) txs2.
Proof. unfold run. apply fold_left_app. Qed.

(** The caller's index after a successful [verifyAndStore]. *)
Lemma verifyAndStore_Ok_users env s report signature txId s' :
  verifyAndStore env s report signature = Ok (txId, s') ->
  userRecords s'
  = <[msg_sender env := default [] (userRecords s !! msg_sender env) ++ [txId]]>
      (userRecords s)
  /\ totalRecords s <> uint256_max.
Proof.
  unfold verifyAndStore, require, mbind, result_bind. intros H.
  destruct (fresh env s report); [| discriminate H].
  destruct (default false (usedIvHash s !! rep_ivHash report)); [discriminate H |].
  cbn [negb] in H.
  destruct (validateIV7Data (rep_iv7Data report)) as [isValid reason].
  destruct isValid; [| discriminate H]. cbn [negb] in H.
  destruct (ECDSA_recover (hashTypedDataV4 report) signature) as [signer|e];
    [| discriminate H].
  destruct (signer =? oracleSigner s); [| discriminate H].
  destruct (Z.eqb_spec (totalRecords s) uint256_max); [discriminate H |].
  injection H as <- <-. cbn. split; [reflexivity | assumption].
Qed.

(** Every transaction is a reverted call, a successful [verifyAndStore], or
    an owner call that leaves the whole ledger as it was. *)
Lemma transact_ledger_cases s tx :
  transact s tx = s
  \/ (exists report signature txId,
        verifyAndStore (fst tx) s report signature = Ok (txId, transact s tx))
  \/ (msg_sender (fst tx) = owner s
      /\ usedIvHash (transact s tx) = usedIvHash s
      /\ ivRecords (transact s tx) = ivRecords s
      /\ userRecords (transact s tx) = userRecords s
      /\ totalRecords (transact s tx) = totalRecords s
      /\ allRecords (transact s tx) = allRecords s).
Proof.
  destruct tx as [env c]. unfold transact, call. cbn [fst snd].
  destruct c as [report signature | a | n | a |].
  - destruct (verifyAndStore env s report signature) as [[txId s']|e] eqn:E; cbn.
    + right. left. exists report, signature, txId. exact E.
    + left. reflexivity.
  - unfold updateOracleSigner, onlyOwner, require, mbind, result_bind.
    destruct (Z.eqb_spec (owner s) (msg_sender env));
      [right; right; cbn; auto 10 | left; reflexivity].
  - unfold updateMaxStaleness, onlyOwner, require, mbind, result_bind.
    destruct (Z.eqb_spec (owner s) (msg_sender env));
      [right; right; cbn; auto 10 | left; reflexivity].
  - unfold transferOwnership, onlyOwner, require, mbind, result_bind.
    destruct (Z.eqb_spec (owner s) (msg_sender env)); [| left; reflexivity].
    destruct (negb (a =? 0)); [right; right; cbn; auto 10 | left; reflexivity].
  - unfold renounceOwnership, onlyOwner, require, mbind, result_bind.
    destruct (Z.eqb_spec (owner s) (msg_sender env));
      [right; right; cbn; auto 10 | left; reflexivity].
Qed.

(** ** Acceptance condition of [verifyAndStore] *)
Lemma verifyAndStore_succeeds env s report signature :
  fresh env s report = true ->
  default false (usedIvHash s !! rep_ivHash report) = false ->
  fst (validateIV7Data (rep_iv7Data report)) = true ->
  ECDSA_recover (hashTypedDataV4 report) signature = Ok (oracleSigner s) ->
  totalRecords s <> uint256_max ->
  exists s',
    verifyAndStore env s report signature
    = Ok (keccak_txId (rep_ivHash report) (block_number env)
                      (block_timestamp env) (msg_sender env), s').
Proof.
  unfold verifyAndStore, require, mbind, result_bind. intros -> -> Hv -> Hmax.
  destruct (validateIV7Data (rep_iv7Data report)) as [isValid reason].
  cbn [fst] in Hv. subst isValid. cbn [negb]. rewrite Z.eqb_refl.
  destruct (Z.eqb_spec (totalRecords s) uint256_max); [contradiction |].
  eexists. reflexivity.
Qed.

Lemma constructor_consistent (deployer signer : Z) :
  ledger_consistent (constructor deployer signer).
Proof.
  unfold ledger_consistent, constructor. cbn.
  split; [reflexivity |]. split.
  { intros txId. rewrite lookup_empty. split; [intros [] | intros [? [=]]]. }
  split; [intros txId r; rewrite lookup_empty; discriminate |].
  split; [intros user txId; rewrite lookup_empty; intros [] | intros txId []].
Qed.

Lemma verifyAndStore_consistent env s report signature txId s' :
  ledger_consistent s ->
  verifyAndStore env s report signature = Ok (txId, s') ->
  ledger_consistent s'.
Proof.
  intros (Htot & Hidx & Hrec & Huser & Hlisted) Hok.
  destruct (verifyAndStore_Ok_users _ _ _ _ _ _ Hok) as [Hu' _].
  apply verifyAndStore_Ok in Hok
    as (_ & _ & _ & _ & _ & Hused' & Hrec' & Hall' & Htot' & _).
  unfold ledger_consistent. rewrite Htot', Hall', Hrec', Hused', Hu'.
  split; [rewrite length_app; cbn [length]; lia |].
  split.
  { intros tx. rewrite in_app_iff. cbn [In].
    destruct (decide (txId = tx)) as [->|Hne].
    - rewrite lookup_insert_eq. split; [eauto | auto].
    - rewrite lookup_insert_ne by assumption. rewrite <- Hidx. tauto. }
  split.
  { intros tx r. destruct (decide (txId = tx)) as [->|Hne].
    - rewrite lookup_insert_eq. intros [= <-]. cbn. split; [reflexivity |].
      apply lookup_insert_eq.
    - rewrite lookup_insert_ne by assumption. intros Hr.
      destruct (Hrec tx r Hr) as [Hv Hu]. split; [exact Hv |].
      destruct (decide (rep_ivHash report = ivHash r)) as [->|Hne'].
      + apply lookup_insert_eq.
      + rewrite lookup_insert_ne by assumption. exact Hu. }
  split.
  { intros user tx. rewrite in_app_iff. cbn [In].
    destruct (decide (msg_sender env = user)) as [->|Hne].
    - rewrite lookup_insert_eq. cbn [from_option id]. rewrite in_app_iff. cbn [In].
      intros [Hin | [-> | []]]; [left; eapply Huser; exact Hin | right; left; reflexivity].
    - rewrite lookup_insert_ne by assumption. intros Hin. left. eapply Huser; exact Hin. }
  intros tx. rewrite in_app_iff. cbn [In]. intros [Hin | [<- | []]].
  - destruct (Hlisted tx Hin) as [user Hu].
    exists user. destruct (decide (msg_sender env = user)) as [->|Hne].
    + rewrite lookup_insert_eq. cbn [from_option id]. apply in_or_app. left. exact Hu.
    + rewrite lookup_insert_ne by assumption. exact Hu.
  - exists (msg_sender env). rewrite lookup_insert_eq. cbn [from_option id].
    apply in_or_app. right. left. reflexivity.
Qed.

Lemma transact_consistent s tx : ledger_consistent s -> ledger_consistent (transact s tx).
Proof.
  intros Hinv.
  destruct (transact_ledger_cases s tx)
    as [-> | [(report & signature & txId & Hok) | (_ & Hu & Hr & Hus & Ht & Ha)]].
  - exact Hinv.
  - eapply verifyAndStore_consistent; eassumption.
  - unfold ledger_consistent. rewrite Hu, Hr, Hus, Ht, Ha. exact Hinv.
Qed.

Lemma reachable_consistent (deployer signer : Z) (txs : list (Env * Call)) :
  ledger_consistent (run (constructor deployer signer) txs).
Proof.
  apply (run_invariant ledger_consistent transact_consistent), constructor_consistent.
Qed.

End LedgerFacts.

(** * Further properties of the ledger *)

(** X9: after a successful [verifyAndStore], [getRecord] of the returned
    id gives back the report's fields with the block number and
    isValid = true, every other id reads as before, the id is appended to
    the caller's own list and the lists of the other users are
    untouched. *)
Theorem stored_record_round_trip {prim : Primitives}
    (env : Env) (s : State) (report : IVReport) (signature : bytes)
    (txId : Z) (s' : State) :
  verifyAndStore env s report signature = Ok (txId, s') ->
  getRecord s' txId = Ok (record_of env report)
  /\ (forall other, other <> txId -> getRecord s' other = getRecord s other)
  /\ (exists mine, getUserRecords s (msg_sender env) = Ok mine
                   /\ getUserRecords s' (msg_sender env) = Ok (mine ++ [txId]))
  /\ (forall user, user <> msg_sender env ->
        getUserRecords s' user = getUserRecords s user).
Proof.
  intros Hok.
  destruct (verifyAndStore_Ok_users _ _ _ _ _ _ Hok) as [Hu _].
  apply verifyAndStore_Ok in Hok as (_ & _ & _ & _ & _ & _ & Hrec & _).
  unfold getRecord, getUserRecords. rewrite Hrec, Hu.
  split; [rewrite lookup_insert_eq; reflexivity |].
  split; [intros other Hne; rewrite lookup_insert_ne by congruence; reflexivity |].
  split.
  - eexists. split; [reflexivity |]. rewrite lookup_insert_eq. reflexivity.
  - intros user Hne. rewrite lookup_insert_ne by congruence. reflexivity.
Qed.

Lemma stored_record_round_trip_witness :
  verifyAndStore (prim := packed_primitives) env_1 deployed report_A sig_oracle
  = Ok (keccak_txId (Primitives := packed_primitives) 1001 1 1000 300, ledger_A)
  /\ getRecord ledger_A (keccak_txId (Primitives := packed_primitives) 1001 1 1000 300)
     = Ok (record_of env_1 report_A).
Proof.
  assert (Hok : verifyAndStore (prim := packed_primitives) env_1 deployed
                  report_A sig_oracle
                = Ok (keccak_txId (Primitives := packed_primitives) 1001 1 1000 300,
                      ledger_A))
    by (vm_compute; reflexivity).
  exact (conj Hok (proj1 (stored_record_round_trip (prim := packed_primitives)
                            env_1 deployed report_A sig_oracle _ ledger_A Hok))).
Defined.

(** X10: after any sequence of transactions on a fresh deployment,
    [totalRecords] is the length of [allRecords]. *)
Theorem totalRecords_counts_allRecords {prim : Primitives}
    (deployer signer : Z) (txs : list (Env * Call)) :
  totalRecords (run (constructor deployer signer) txs)
  = Z.of_nat (length (allRecords (run (constructor deployer signer) txs))).
Proof. apply (reachable_consistent deployer signer txs). Qed.

(** X11: after any sequence of transactions on a fresh deployment, the
    ids listed in [allRecords] are exactly the ids for which [getRecord]
    returns a record with isValid = true; for every other id the flag of
    the returned record is false. *)
Theorem isValid_marks_stored_ids {prim : Primitives}
    (deployer signer : Z) (txs : list (Env * Call)) (txId : Z) :
  In txId (allRecords (run (constructor deployer signer) txs))
  <-> exists r, getRecord (run (constructor deployer signer) txs) txId = Ok r
                /\ isValid r = true.
Proof.
  destruct (reachable_consistent deployer signer txs) as (_ & Hidx & Hrec & _).
  unfold getRecord. rewrite Hidx. split.
  - intros [r Hr]. exists r. rewrite Hr. split; [reflexivity |]. apply (Hrec txId r Hr).
  - intros (r & [= <-] & Hv).
    destruct (ivRecords (run (constructor deployer signer) txs) !! txId) eqn:E;
      [eauto | discriminate Hv].
Qed.

Lemma transact_append_only {prim : Primitives} (s : State) (tx : Env * Call) :
  allRecords s `prefix_of` allRecords (transact s tx)
  /\ totalRecords s <= totalRecords (transact s tx).
Proof.
  destruct (transact_ledger_cases s tx)
    as [-> | [(report & signature & txId & Hok) | (_ & _ & _ & _ & -> & ->)]].
  - split; [reflexivity | lia].
  - apply verifyAndStore_Ok in Hok as (_ & _ & _ & _ & _ & _ & _ & -> & -> & _).
    split; [apply prefix_app_r; reflexivity | lia].
  - split; [reflexivity | lia].
Qed.

(** X12: the ledger is append-only: whatever transactions follow, the
    list of ids keeps its earlier entries as a prefix and [totalRecords]
    never decreases. *)
Theorem ledger_is_append_only {prim : Primitives}
    (s : State) (txs : list (Env * Call)) :
  allRecords s `prefix_of` allRecords (run s txs)
  /\ totalRecords s <= totalRecords (run s txs).
Proof.
  unfold run. revert s. induction txs as [|tx txs IH]; intros s; cbn [fold_left].
  - split; [reflexivity | lia].
  - destruct (transact_append_only s tx) as [Hp Ht].
    destruct (IH (transact s tx)) as [Hp' Ht'].
    split; [etransitivity; eassumption | lia].
Qed.

(** X13: a stored record is immutable as long as no later successful
    [verifyAndStore] produces a transaction id that is already in the
    ledger: [getRecord] keeps returning the same record. *)
Theorem records_immutable_without_id_reuse {prim : Primitives}
    (s : State) (txs : list (Env * Call)) (txId : Z) :
  no_id_reuse s txs = true ->
  is_Some (ivRecords s !! txId) ->
  getRecord (run s txs) txId = getRecord s txId.
Proof.
  unfold run. revert s. induction txs as [|tx txs IH]; intros s Hfree Hin;
    cbn [fold_left]; [reflexivity |].
  cbn [no_id_reuse] in Hfree. apply andb_true_iff in Hfree as [Hhere Hrest].
  assert (Hstep : ivRecords (transact s tx) !! txId = ivRecords s !! txId).
  { destruct tx as [env c]. unfold transact, call in *. cbn [fst snd] in *.
    destruct c as [report signature | a | n | a |].
    - destruct (verifyAndStore env s report signature) as [[new s']|e] eqn:E;
        cbn; [| reflexivity].
      apply verifyAndStore_Ok in E as (_ & _ & _ & _ & _ & _ & -> & _).
      destruct (ivRecords s !! new) eqn:Hnew; [discriminate Hhere |].
      apply lookup_insert_ne. intros ->. rewrite Hnew in Hin. destruct Hin as [? [=]].
    - unfold updateOracleSigner, onlyOwner, require, mbind, result_bind.
      destruct (owner s =? msg_sender env); reflexivity.
    - unfold updateMaxStaleness, onlyOwner, require, mbind, result_bind.
      destruct (owner s =? msg_sender env); reflexivity.
    - unfold transferOwnership, onlyOwner, require, mbind, result_bind.
      destruct (owner s =? msg_sender env); [| reflexivity].
      destruct (negb (a =? 0)); reflexivity.
    - unfold renounceOwnership, onlyOwner, require, mbind, result_bind.
      destruct (owner s =? msg_sender env); reflexivity. }
  rewrite (IH (transact s tx) Hrest) by (rewrite Hstep; exact Hin).
  unfold getRecord. rewrite Hstep. reflexivity.
Qed.

Lemma records_immutable_without_id_reuse_witness :
  no_id_reuse (prim := packed_primitives) ledger_A
    [(env_2, CallVerifyAndStore report_C sig_oracle)] = true
  /\ is_Some (ivRecords ledger_A
                !! keccak_txId (Primitives := packed_primitives) 1001 1 1000 300)
  /\ getRecord (run (prim := packed_primitives) ledger_A
                  [(env_2, CallVerifyAndStore report_C sig_oracle)])
               (keccak_txId (Primitives := packed_primitives) 1001 1 1000 300)
     = getRecord ledger_A (keccak_txId (Primitives := packed_primitives) 1001 1 1000 300).
Proof.
  assert (Hfree : no_id_reuse (prim := packed_primitives) ledger_A
                    [(env_2, CallVerifyAndStore report_C sig_oracle)] = true)
    by (vm_compute; reflexivity).
  assert (Hin : is_Some (ivRecords ledger_A
                   !! keccak_txId (Primitives := packed_primitives) 1001 1 1000 300))
    by (exists (record_of env_1 report_A); vm_compute; reflexivity).
  exact (conj Hfree (conj Hin
    (records_immutable_without_id_reuse (prim := packed_primitives) ledger_A
       [(env_2, CallVerifyAndStore report_C sig_oracle)] _ Hfree Hin))).
Defined.

Lemma invalid_ids_nil_iff (s : State) : invalid_ids s = [] <-> all_valid s.
Proof.
  split; [| apply all_valid_no_invalid_ids].
  unfold invalid_ids, all_valid. intros Hnil txId Hin.
  destruct (fst (validateIV7Data (iv7Data (stored s txId)))) eqn:E; [reflexivity |].
  assert (Hbad : In txId (List.filter
            (fun txId => negb (fst (validateIV7Data (iv7Data (stored s txId)))))
            (allRecords s))).
  { apply filter_In. split; [exact Hin |]. rewrite E. reflexivity. }
  rewrite Hnil in Hbad. destruct Hbad.
Qed.

(** X14: on any state, corrupted or not, [verifyChainIntegrity] answers
    valid exactly when every listed id holds a vector the validator
    accepts (an id without a record reads as the zero vector and counts
    as invalid); otherwise it answers invalid with the number of listed
    ids whose vector is rejected, between 1 and the length of the list. *)
Theorem verifier_accepts_iff_all_valid (s : State) :
  (verifyChainIntegrity s = Ok (true, 0, "All voiceprints valid") <-> all_valid s)
  /\ (verifyChainIntegrity s = Ok (true, 0, "All voiceprints valid")
      \/ verifyChainIntegrity s
         = Ok (false, Z.of_nat (length (invalid_ids s)),
               "Invalid voiceprints detected in chain")
         /\ (1 <= length (invalid_ids s) <= length (allRecords s))%nat).
Proof.
  rewrite verifyChainIntegrity_verdict, <- invalid_ids_nil_iff. unfold verdict.
  assert (Hlen : (length (invalid_ids s) <= length (allRecords s))%nat).
  { unfold invalid_ids. generalize (allRecords s) as l.
    intros l. induction l as [|x l IH]; cbn [List.filter length]; [lia |].
    destruct (negb _); cbn [length]; lia. }
  destruct (invalid_ids s) as [|bad rest] eqn:E.
  - split; [| left; reflexivity]. split; reflexivity.
  - cbn [length] in *.
    destruct (Z.gtb_spec (Z.of_nat (S (length rest))) 0); [| lia].
    split; [split; discriminate |]. right. split; [reflexivity | lia].
Qed.

Lemma transact_non_owner {prim : Primitives} (s : State) (tx : Env * Call) :
  msg_sender (fst tx) <> owner s ->
  oracleSigner (transact s tx) = oracleSigner s
  /\ maxStaleness (transact s tx) = maxStaleness s
  /\ owner (transact s tx) = owner s.
Proof.
  intros Hother.
  destruct (transact_ledger_cases s tx)
    as [-> | [(report & signature & txId & Hok) | (Howner & _)]].
  - auto.
  - apply verifyAndStore_Ok in Hok
      as (_ & _ & _ & _ & _ & _ & _ & _ & _ & -> & -> & ->). auto.
  - contradiction.
Qed.

(** X15: a transaction sent by an account that is not the owner never
    changes the oracle signer, the staleness limit or the owner. *)
Theorem only_owner_changes_configuration {prim : Primitives}
    (s : State) (tx : Env * Call) :
  msg_sender (fst tx) <> owner s ->
  oracleSigner (transact s tx) = oracleSigner s
  /\ maxStaleness (transact s tx) = maxStaleness s
  /\ owner (transact s tx) = owner s.
Proof. apply transact_non_owner. Qed.

Lemma only_owner_changes_configuration_witness :
  msg_sender (fst (env_1, CallUpdateOracleSigner 300)) <> owner deployed
  /\ oracleSigner (transact (prim := packed_primitives) deployed
                     (env_1, CallUpdateOracleSigner 300)) = oracleSigner deployed.
Proof.
  assert (Hother : msg_sender (fst (env_1, CallUpdateOracleSigner 300)) <> owner deployed)
    by (vm_compute; discriminate).
  exact (conj Hother (proj1 (only_owner_changes_configuration
           (prim := packed_primitives) deployed (env_1, CallUpdateOracleSigner 300) Hother))).
Defined.

(** X16: [verifyAndStore] succeeds exactly when the report is fresh, its
    ivHash is unused, its vector passes the validator, the signature
    recovers to the oracle signer and the record counter is not at its
    maximum; the id it returns is the hash of the report's ivHash with the
    block number, block timestamp and caller. *)
Theorem verifyAndStore_succeeds_iff {prim : Primitives}
    (env : Env) (s : State) (report : IVReport) (signature : bytes) :
  (exists txId s', verifyAndStore env s report signature = Ok (txId, s'))
  <-> fresh env s report = true
      /\ default false (usedIvHash s !! rep_ivHash report) = false
      /\ fst (validateIV7Data (rep_iv7Data report)) = true
      /\ ECDSA_recover (hashTypedDataV4 report) signature = Ok (oracleSigner s)
      /\ totalRecords s <> uint256_max.
Proof.
  split.
  - intros (txId & s' & Hok).
    destruct (verifyAndStore_Ok_users _ _ _ _ _ _ Hok) as [_ Hmax].
    apply verifyAndStore_Ok in Hok as (H1 & H2 & H3 & H4 & _). auto.
  - intros (H1 & H2 & H3 & H4 & H5).
    destruct (verifyAndStore_succeeds env s report signature H1 H2 H3 H4 H5) as [s' Hs'].
    eauto.
Qed.

(** X17: after the owner replaced the oracle signer, a fresh, unused,
    valid report signed by the previous signer is rejected with the
    invalid-signature error, and the same report signed by the new signer
    is stored. *)
Theorem signer_rotation {prim : Primitives}
    (env0 : Env) (s : State) (newSigner : Z) (s1 : State)
    (env : Env) (report : IVReport) (signature : bytes) :
  updateOracleSigner env0 s newSigner = Ok s1 ->
  fresh env s report = true ->
  default false (usedIvHash s !! rep_ivHash report) = false ->
  fst (validateIV7Data (rep_iv7Data report)) = true ->
  totalRecords s <> uint256_max ->
  (ECDSA_recover (hashTypedDataV4 report) signature = Ok (oracleSigner s) ->
   oracleSigner s <> newSigner ->
   verifyAndStore env s1 report signature = Err (Error "Invalid oracle signature"))
  /\ (ECDSA_recover (hashTypedDataV4 report) signature = Ok newSigner ->
      exists txId s2, verifyAndStore env s1 report signature = Ok (txId, s2)).
Proof.
  unfold updateOracleSigner, onlyOwner, require, mbind, result_bind.
  destruct (owner s =? msg_sender env0); [| discriminate].
  intros [= <-] Hfresh Hunused Hvalid Hmax. split.
  - intros Hrec Hne.
    apply (verifyAndStore_wrong_signer _ _ _ _ (oracleSigner s)); assumption.
  - intros Hrec.
    destruct (verifyAndStore_succeeds env
                {| owner := owner s; oracleSigner := newSigner;
                   maxStaleness := maxStaleness s; usedIvHash := usedIvHash s;
                   ivRecords := ivRecords s; userRecords := userRecords s;
                   totalRecords := totalRecords s; allRecords := allRecords s |}
                report signature Hfresh Hunused Hvalid Hrec Hmax) as [s2 Hs2].
    eauto.
Qed.

Lemma signer_rotation_witness :
  updateOracleSigner env_owner deployed 1
  = Ok (transact (prim := packed_primitives) deployed (env_owner, CallUpdateOracleSigner 1))
  /\ verifyAndStore (prim := packed_primitives) env_1
       (transact (prim := packed_primitives) deployed (env_owner, CallUpdateOracleSigner 1))
       report_A sig_oracle
     = Err (Error "Invalid oracle signature").
Proof.
  assert (Hup : updateOracleSigner env_owner deployed 1
                = Ok (transact (prim := packed_primitives) deployed
                        (env_owner, CallUpdateOracleSigner 1)))
    by (vm_compute; reflexivity).
  assert (Hfresh : fresh env_1 deployed report_A = true) by reflexivity.
  assert (Hunused : default false (usedIvHash deployed !! rep_ivHash report_A) = false)
    by reflexivity.
  assert (Hvalid : fst (validateIV7Data (rep_iv7Data report_A)) = true)
    by (vm_compute; reflexivity).
  assert (Hmax : totalRecords deployed <> uint256_max) by (vm_compute; discriminate).
  assert (Hrec : ECDSA_recover (Primitives := packed_primitives)
                   (hashTypedDataV4 (Primitives := packed_primitives) report_A) sig_oracle
                 = Ok (oracleSigner deployed)) by reflexivity.
  assert (Hne : oracleSigner deployed <> 1) by (vm_compute; discriminate).
  exact (conj Hup
    (proj1 (signer_rotation (prim := packed_primitives) env_owner deployed 1 _
              env_1 report_A sig_oracle Hup Hfresh Hunused Hvalid Hmax) Hrec Hne)).
Defined.

(** X18: a report is admitted only inside the inclusive window
    [timestamp <= block.timestamp <= timestamp + maxStaleness]: a report
    dated after the block, or older than the limit, is rejected with the
    stale error before anything else is looked at. *)
Theorem outside_staleness_window_rejected {prim : Primitives}
    (env : Env) (s : State) (report : IVReport) (signature : bytes) :
  ~ (rep_timestamp report <= block_timestamp env
     <= rep_timestamp report + maxStaleness s) ->
  verifyAndStore env s report signature = Err (Error "Report too stale").
Proof.
  intros Hout. apply verifyAndStore_stale. unfold fresh.
  destruct (Z.geb_spec (block_timestamp env) (rep_timestamp report)); [| reflexivity].
  destruct (Z.leb_spec (block_timestamp env - rep_timestamp report) (maxStaleness s));
    [lia | reflexivity].
Qed.

Lemma outside_staleness_window_rejected_witness :
  ~ (rep_timestamp report_A_again <= block_timestamp env_2
     <= rep_timestamp report_A_again + maxStaleness deployed)
  /\ verifyAndStore (prim := packed_primitives) env_2 deployed report_A_again sig_oracle
     = Err (Error "Report too stale").
Proof.
  assert (Hout : ~ (rep_timestamp report_A_again <= block_timestamp env_2
                    <= rep_timestamp report_A_again + maxStaleness deployed))
    by (vm_compute; intros [H _]; apply H; reflexivity).
  exact (conj Hout (outside_staleness_window_rejected (prim := packed_primitives)
                      env_2 deployed report_A_again sig_oracle Hout)).
Defined.

(** X19: after any sequence of transactions on a fresh deployment, the
    per-user lists and the global list hold the same ids: every id
    returned by [getUserRecords] is in [allRecords], and every id of
    [allRecords] is in the list of some user. *)
Theorem user_index_matches_ledger {prim : Primitives}
    (deployer signer : Z) (txs : list (Env * Call)) (txId : Z) :
  In txId (allRecords (run (constructor deployer signer) txs))
  <-> exists user ids,
        getUserRecords (run (constructor deployer signer) txs) user = Ok ids
        /\ In txId ids.
Proof.
  destruct (reachable_consistent deployer signer txs) as (_ & _ & _ & Huser & Hlisted).
  unfold getUserRecords. split.
  - intros Hin. destruct (Hlisted txId Hin) as [user Hu]. eauto.
  - intros (user & ids & [= <-] & Hin). eapply Huser, Hin.
Qed.

(** X20: once ownership is renounced (the owner is the zero address), no
    sequence of transactions sent from non-zero accounts changes the
    oracle signer, the staleness limit or the owner again. *)
Theorem renounced_configuration_is_frozen {prim : Primitives}
    (s : State) (txs : list (Env * Call)) :
  owner s = 0 ->
  Forall (fun tx => msg_sender (fst tx) <> 0) txs ->
  oracleSigner (run s txs) = oracleSigner s
  /\ maxStaleness (run s txs) = maxStaleness s
  /\ owner (run s txs) = 0.
Proof.
  unfold run. revert s. induction txs as [|tx txs IH]; intros s Howner Hsenders;
    cbn [fold_left]; [auto |].
  apply Forall_cons_iff in Hsenders as [Htx Hrest].
  assert (Hne : msg_sender (fst tx) <> owner s) by (rewrite Howner; exact Htx).
  destruct (transact_non_owner s tx Hne) as (Hs & Hm & Ho).
  rewrite Howner in Ho.
  destruct (IH (transact s tx) Ho Hrest) as (Hs' & Hm' & Ho').
  rewrite Hs', Hm', Hs, Hm. auto.
Qed.

Lemma renounced_configuration_is_frozen_witness :
  owner (transact (prim := packed_primitives) deployed (env_owner, CallRenounceOwnership)) = 0
  /\ Forall (fun tx => msg_sender (fst tx) <> 0)
        [(env_owner, CallUpdateOracleSigner 1); (env_1, CallUpdateMaxStaleness 0)]
  /\ oracleSigner
       (run (prim := packed_primitives)
          (transact (prim := packed_primitives) deployed (env_owner, CallRenounceOwnership))
          [(env_owner, CallUpdateOracleSigner 1); (env_1, CallUpdateMaxStaleness 0)])
     = 200.
Proof.
  assert (Howner : owner (transact (prim := packed_primitives) deployed
                            (env_owner, CallRenounceOwnership)) = 0)
    by (vm_compute; reflexivity).
  assert (Hsenders : Forall (fun tx => msg_sender (fst tx) <> 0)
            [(env_owner, CallUpdateOracleSigner 1); (env_1, CallUpdateMaxStaleness 0)])
    by (repeat constructor; vm_compute; discriminate).
  exact (conj Howner (conj Hsenders
    (proj1 (renounced_configuration_is_frozen (prim := packed_primitives)
              _ _ Howner Hsenders)))).
Defined.
